(** * Billie: invoice review front end and extraction contract

    A shallow embedding of the React pages of the Billie front end
    ([frontend/src/pages/Review.jsx], [Upload.jsx], [InvoiceList.jsx]) and of
    the field-extraction pipeline whose result they consume.

    JavaScript values are modelled as follows.
    - A string is a [string] whose characters are the code units
      U+0000..U+00FF.
    - A number is [NaN], an infinity, or a rational.  Literals and comparisons
      are exact; [parseFloat] rounds its decimal to binary64 ([round64]).
      Negative zero is not told apart from zero (no operation used here
      does).
    - React state is a record; a handler is a function from the state (and
      the outcome of the request it awaits) to the new state and the list of
      effects it performed, in order. *)

From Stdlib Require Import ZArith QArith Qround Qminmax List String Ascii Bool Lia Arith
  DecimalString.
Import ListNotations.

Open Scope string_scope.

(* ------------------------------------------------------------------ *)
(** ** JavaScript values *)

Module Js.

Inductive number :=
| NaN
| PosInf
| NegInf
| Fin (q : Q).

(** The values that cross the wire contract or sit in a form field:
    [null], a number or a string, and what else a JSON body can hold, a
    boolean, or an array or object, which is kept by the string that
    [String(v)] converts it to. *)
Inductive value :=
| Null
| Num (n : number)
| Str (s : string)
| Bool (b : bool)
| Obj (to_string : string).

Definition isNaN (n : number) : bool :=
  match n with NaN => true | _ => false end.

Definition is_zero (n : number) : bool :=
  match n with Fin q => Qeq_bool q 0%Q | _ => false end.

(** ToBoolean. *)
Definition truthy_number (n : number) : bool :=
  negb (isNaN n) && negb (is_zero n).

Definition truthy (v : value) : bool :=
  match v with
  | Null => false
  | Num n => truthy_number n
  | Str s => negb (s =? EmptyString)
  | Bool b => b
  | Obj _ => true
  end.

(** [a || b]. *)
Definition or_else (a b : value) : value :=
  if truthy a then a else b.

Definition number_or (a b : number) : number :=
  if truthy_number a then a else b.

(** Relational operators on numbers: every comparison with [NaN] is
    false. *)
Definition lt (a b : number) : bool :=
  match a, b with
  | NaN, _ | _, NaN => false
  | PosInf, _ => false
  | _, NegInf => false
  | NegInf, _ => true
  | _, PosInf => true
  | Fin p, Fin q => negb (Qle_bool q p)
  end.

Definition le (a b : number) : bool :=
  match a, b with
  | NaN, _ | _, NaN => false
  | NegInf, _ => true
  | _, PosInf => true
  | PosInf, _ => false
  | _, NegInf => false
  | Fin p, Fin q => Qle_bool p q
  end.

Definition gt (a b : number) : bool := lt b a.
Definition ge (a b : number) : bool := le b a.

Definition neg (n : number) : number :=
  match n with
  | NaN => NaN
  | PosInf => NegInf
  | NegInf => PosInf
  | Fin q => Fin (Qred (- q)%Q)
  end.

(** *** Rounding to binary64 (round to nearest, ties to even) *)

Definition pow2 (e : Z) : Q :=
  if (0 <=? e)%Z then inject_Z (2 ^ e) else (1 # Z.to_pos (2 ^ (- e)))%Q.

(** [floor (log2 q)] for [q > 0]. *)
Definition floor_log2 (q : Q) : Z :=
  let g := (Z.log2 (Qnum q) - Z.log2 (Zpos (Qden q)))%Z in
  if Qle_bool (pow2 g) q then g else (g - 1)%Z.

Definition round_half_even (q : Q) : Z :=
  let f := Qfloor q in
  match ((q - inject_Z f) ?= (1 # 2))%Q with
  | Lt => f
  | Gt => (f + 1)%Z
  | Eq => if Z.even f then f else (f + 1)%Z
  end.

Definition round64_pos (q : Q) : number :=
  let e := Z.max (floor_log2 q) (-1022) in
  let ulp := pow2 (e - 52) in
  let r := (inject_Z (round_half_even (q / ulp)) * ulp)%Q in
  if Qle_bool (pow2 1024) r then PosInf else Fin (Qred r).

Definition round64 (q : Q) : number :=
  match Qnum q with
  | Z0 => Fin 0%Q
  | Zpos _ => round64_pos q
  | Zneg _ => neg (round64_pos (- q)%Q)
  end.

(** *** Strings *)

Definition code (c : ascii) : N := N_of_ascii c.

(** WhiteSpace and LineTerminator code units below U+0100:
    TAB, LF, VT, FF, CR, SP, NBSP. *)
Definition is_whitespace (c : ascii) : bool :=
  let n := code c in
  ((9 <=? n) && (n <=? 13) || (n =? 32) || (n =? 160))%N.

Fixpoint trimStart (s : string) : string :=
  match s with
  | String c r => if is_whitespace c then trimStart r else s
  | EmptyString => EmptyString
  end.

Fixpoint rev (s : string) : string :=
  match s with
  | String c r => rev r ++ String c EmptyString
  | EmptyString => EmptyString
  end.

Definition trimEnd (s : string) : string := rev (trimStart (rev s)).

Definition trim (s : string) : string := trimEnd (trimStart s).

(** Lower-casing of one code unit: A-Z, and the Latin-1 capitals
    U+00C0..U+00DE except the multiplication sign U+00D7. *)
Definition lower_char (c : ascii) : ascii :=
  let n := code c in
  if ((65 <=? n) && (n <=? 90)
      || (192 <=? n) && (n <=? 222) && negb (n =? 215))%N
  then ascii_of_N (n + 32) else c.

Fixpoint toLowerCase (s : string) : string :=
  match s with
  | String c r => String (lower_char c) (toLowerCase r)
  | EmptyString => EmptyString
  end.

Definition endsWith (s suffix : string) : bool :=
  let n := String.length s in
  let m := String.length suffix in
  (m <=? n)%nat && (substring (n - m) m s =? suffix).

(** *** parseFloat *)

Definition digit_of (c : ascii) : option Z :=
  let n := Z.of_N (code c) in
  if ((48 <=? n) && (n <=? 57))%Z then Some (n - 48)%Z else None.

(** The longest run of decimal digits at the head of [s], and the rest. *)
Fixpoint take_digits (s : string) : list Z * string :=
  match s with
  | String c r =>
      match digit_of c with
      | Some d => let (ds, rest) := take_digits r in (d :: ds, rest)
      | None => ([], s)
      end
  | EmptyString => ([], EmptyString)
  end.

Definition digits_value (ds : list Z) : Z :=
  fold_left (fun acc d => (10 * acc + d)%Z) ds 0%Z.

(** [m * 10^e] as a rational. *)
Definition scale10 (m e : Z) : Q :=
  if (0 <=? e)%Z then inject_Z (m * 10 ^ e)
  else (m # Z.to_pos (10 ^ (- e)))%Q.

(** ExponentPart, when one follows; 0 otherwise. *)
Definition parse_exponent (s : string) : Z :=
  match s with
  | String c r =>
      if ((code c =? 101) || (code c =? 69))%N then
        let '(sign, r') :=
          match r with
          | String "+" t => (1%Z, t)
          | String "-" t => ((-1)%Z, t)
          | _ => (1%Z, r)
          end in
        match fst (take_digits r') with
        | [] => 0%Z
        | ds => (sign * digits_value ds)%Z
        end
      else 0%Z
  | EmptyString => 0%Z
  end.

(** The longest prefix that is a StrUnsignedDecimalLiteral. *)
Definition parse_unsigned (s : string) : number :=
  if prefix "Infinity" s then PosInf
  else
    let (ip, r1) := take_digits s in
    let (fp, r2) :=
      match r1 with
      | String "." r => take_digits r
      | _ => ([], r1)
      end in
    match (ip ++ fp)%list with
    | [] => NaN
    | ds =>
        round64 (scale10 (digits_value ds)
                         (parse_exponent r2 - Z.of_nat (List.length fp)))
    end.

Definition parseFloat_string (s : string) : number :=
  match trimStart s with
  | String "+" r => parse_unsigned r
  | String "-" r => neg (parse_unsigned r)
  | t => parse_unsigned t
  end.

(** [parseFloat(v)] converts [v] to a string first; Number::toString
    prints a number so that it reads back as itself, and [null], [true]
    and [false] print as words that are no numbers. *)
Definition parseFloat (v : value) : number :=
  match v with
  | Str s => parseFloat_string s
  | Num n => n
  | Null => NaN
  | Bool b => parseFloat_string (if b then "true" else "false")
  | Obj to_string => parseFloat_string to_string
  end.

End Js.

(* ------------------------------------------------------------------ *)
(** ** [pages/Review.jsx] *)

Module Review.
Import Js.

(** The extraction result found in [location.state], as the upload
    response delivered it.  A confidence that is missing reads as
    [undefined], which [|| 0] treats like [NaN]. *)
Record ExtractionResult := {
  er_filename : value;
  er_vendor : value;
  er_vendor_confidence : number;
  er_date : value;
  er_date_confidence : number;
  er_total : value;
  er_total_confidence : number;
  er_invoice_number : value;
  er_invoice_number_confidence : number
}.

Record FormData := {
  file_id : value;
  filename : value;
  vendor : value;
  date : value;
  total : value;
  invoice_number : value;
  status : string
}.

(** [extractionResult?.f || d]. *)
Definition field_or {A} (extractionResult : option ExtractionResult)
           (f : ExtractionResult -> A) (missing : A) (orElse : A -> A) : A :=
  match extractionResult with
  | Some r => orElse (f r)
  | None => orElse missing
  end.

(** The initial form state. *)
Definition initial_formData (fileId : string)
           (extractionResult : option ExtractionResult) : FormData :=
  let get f := field_or extractionResult f Null (fun v => or_else v (Str EmptyString)) in
  {| file_id := Str fileId;
     filename := get er_filename;
     vendor := get er_vendor;
     date := get er_date;
     total := get er_total;
     invoice_number := get er_invoice_number;
     status := "draft" |}.

Record Confidence := {
  c_vendor : number;
  c_date : number;
  c_total : number;
  c_invoice_number : number
}.

Definition confidence (extractionResult : option ExtractionResult) : Confidence :=
  let get f := field_or extractionResult f NaN (fun n => number_or n (Fin 0)) in
  {| c_vendor := get er_vendor_confidence;
     c_date := get er_date_confidence;
     c_total := get er_total_confidence;
     c_invoice_number := get er_invoice_number_confidence |}.

(** The four fields of the form. *)
Inductive Field := VendorField | InvoiceNumberField | DateField | TotalField.

(** The confidence the extraction result reports for a field. *)
Definition reported (r : ExtractionResult) (f : Field) : number :=
  match f with
  | VendorField => er_vendor_confidence r
  | InvoiceNumberField => er_invoice_number_confidence r
  | DateField => er_date_confidence r
  | TotalField => er_total_confidence r
  end.

(** The score handed to the badge and the highlight of a field:
    [confidence.vendor] and so on. *)
Definition score (c : Confidence) (f : Field) : number :=
  match f with
  | VendorField => c_vendor c
  | InvoiceNumberField => c_invoice_number c
  | DateField => c_date c
  | TotalField => c_total c
  end.

(** *** Confidence display *)

Inductive Badge :=
| HighConfidence   (* "High confidence" *)
| LowConfidence    (* "Low confidence - please review" *)
| NotDetected.     (* "Not detected" *)

Definition ConfidenceBadge (score : number) : Badge :=
  if ge score (Fin (8 # 10)) then HighConfidence
  else if gt score (Fin 0) then LowConfidence
  else NotDetected.

(** [true] when the children are wrapped in the yellow box. *)
Definition LowConfidenceHighlight (score : number) : bool :=
  lt score (Fin (8 # 10)) && gt score (Fin 0).

(** *** Saving *)

Record InvoiceData := {
  i_file_id : value;
  i_filename : value;
  i_vendor : value;
  i_date : value;
  i_total : number;
  i_invoice_number : value;
  i_status : string
}.

Inductive Effect :=
| CreateInvoice (invoiceData : InvoiceData)
| ToastSuccess (message : string)
| ToastError (message : string)
| Navigate (path : string).

(** How the awaited [createInvoice] call settles; a rejection carries
    [err.detail] when the server gave one. *)
Inductive Response :=
| Resolved
| Rejected (detail : option string).

Record State := {
  formData : FormData;
  isSaving : bool;
  error : option string
}.

(** [err.detail || fallback]. *)
Definition detail_or (detail : option string) (fallback : string) : string :=
  match detail with
  | Some d => if d =? EmptyString then fallback else d
  | None => fallback
  end.

Definition validate_vendor (v : value) : list string :=
  if negb (truthy v) then ["Vendor is required"]
  else match v with
       | Str s => if trim s =? EmptyString then ["Vendor is required"] else []
       | _ => []
       end.

(** The chain [if (!total) ... else if (typeof total === 'string') ...
    else if (typeof total === 'number') ...] has no final [else]: a truthy
    total of another type adds no message. *)
Definition validate_total (v : value) : list string :=
  if negb (truthy v) then ["Total amount is required"]
  else match v with
       | Str s =>
           if trim s =? EmptyString then ["Total amount is required"]
           else
             let totalValue := parseFloat v in
             if isNaN totalValue || le totalValue (Fin 0)
             then ["Total amount must be a valid number greater than 0"]
             else []
       | Num n =>
           if isNaN n || le n (Fin 0)
           then ["Total amount must be a valid number greater than 0"]
           else []
       | _ => []
       end.

Definition validationErrors (fd : FormData) : list string :=
  (validate_vendor (vendor fd) ++ validate_total (total fd))%list.

Definition build_invoiceData (fd : FormData) (status : string) : InvoiceData :=
  {| i_file_id := file_id fd;
     i_filename := or_else (filename fd) Null;
     i_vendor := vendor fd;
     i_date := or_else (date fd) Null;
     i_total := parseFloat (total fd);
     i_invoice_number := or_else (invoice_number fd) Null;
     i_status := status |}.

Definition handleSave (status : string) (respond : InvoiceData -> Response)
           (st : State) : State * list Effect :=
  let fd := formData st in
  match validationErrors fd with
  | (_ :: _) as errs =>
      let errorMessage := String.concat ". " errs in
      ({| formData := fd; isSaving := false; error := Some errorMessage |},
       [ToastError errorMessage])
  | [] =>
      let invoiceData := build_invoiceData fd status in
      match respond invoiceData with
      | Resolved =>
          ({| formData := fd; isSaving := true; error := None |},
           [CreateInvoice invoiceData;
            ToastSuccess (if status =? "approved"
                          then "Invoice saved and approved successfully!"
                          else "Invoice rejected.");
            Navigate "/invoices"])
      | Rejected detail =>
          let message := detail_or detail "Failed to save invoice" in
          ({| formData := fd; isSaving := false; error := Some message |},
           [CreateInvoice invoiceData; ToastError message])
      end
  end.

Definition handleReject := handleSave "rejected".

Inductive Button := SaveAndApprove | Reject.

Definition onClick (b : Button) :=
  match b with
  | SaveAndApprove => handleSave "approved"
  | Reject => handleReject
  end.

(** The requests a handler run sent. *)
Definition requests (effects : list Effect) : list InvoiceData :=
  flat_map (fun e => match e with CreateInvoice d => [d] | _ => [] end) effects.

End Review.

(* ------------------------------------------------------------------ *)
(** ** [pages/Upload.jsx] *)

Module Upload.
Import Js.

Record File := {
  name : string;
  size : N;          (* bytes *)
  type : string      (* MIME type *)
}.

Inductive Effect :=
| UploadInvoice (file : File)
| ToastSuccess (message : string)
| ToastError (message : string)
| Navigate (path : string).

(** How the awaited [uploadInvoice] call settles. *)
Inductive Response :=
| Resolved (result_file_id : string)
| Rejected (detail : option string).

Record State := {
  isDragging : bool;
  isUploading : bool;
  uploadProgress : Z;
  error : option string
}.

Definition dquote : string := String (ascii_of_nat 34) EmptyString.

(** The notice under the drop zone. *)
Definition size_notice : string := "Maximum file size: 10MB".

Definition detail_or (detail : option string) (fallback : string) : string :=
  match detail with
  | Some d => if d =? EmptyString then fallback else d
  | None => fallback
  end.

(** The state and the effects at the moment [processFile] returns, the
    awaited request having settled.  The progress timer is not part of
    this state: it moves [uploadProgress] while the request is pending
    and, since only the path after a successful [await] clears it, also
    after a rejection; [UploadProgress] below follows the timer. *)
Definition processFile (respond : File -> Response) (file : File)
           (st : State) : State * list Effect :=
  match respond file with
  | Resolved result_file_id =>
      ({| isDragging := isDragging st; isUploading := true;
          uploadProgress := 100; error := None |},
       [UploadInvoice file;
        ToastSuccess ("Invoice " ++ dquote ++ name file ++ dquote
                      ++ " uploaded successfully! Data extracted.");
        Navigate ("/review/" ++ result_file_id)])
  | Rejected detail =>
      let message := detail_or detail "Failed to process PDF file" in
      ({| isDragging := isDragging st; isUploading := false;
          uploadProgress := 0; error := Some message |},
       [UploadInvoice file; ToastError message])
  end.

Definition is_pdf_name (file : File) : bool :=
  endsWith (toLowerCase (name file)) ".pdf".

Definition set_error (message : string) (st : State) : State :=
  {| isDragging := isDragging st; isUploading := isUploading st;
     uploadProgress := uploadProgress st; error := Some message |}.

(** [files] is [e.dataTransfer.files]. *)
Definition handleDrop (files : list File) (respond : File -> Response)
           (st : State) : State * list Effect :=
  let st := {| isDragging := false; isUploading := isUploading st;
               uploadProgress := uploadProgress st; error := error st |} in
  match files with
  | [] => (st, [])
  | file :: _ =>
      if negb (is_pdf_name file)
      then (set_error "Only PDF files are supported" st, [])
      else processFile respond file st
  end.

(** [files] is [e.target.files]. *)
Definition handleFileSelect (files : list File) (respond : File -> Response)
           (st : State) : State * list Effect :=
  match files with
  | [] => (st, [])
  | file :: _ =>
      if negb (is_pdf_name file)
      then (set_error "Only PDF files are supported" st, [])
      else processFile respond file st
  end.

Definition requests (effects : list Effect) : list File :=
  flat_map (fun e => match e with UploadInvoice f => [f] | _ => [] end) effects.

End Upload.

(* ------------------------------------------------------------------ *)
(** ** [pages/InvoiceList.jsx]: the component [InvoiceList] *)

Module InvoiceList.

Record Invoice := {
  id : Z;
  file_id : string;
  vendor : string;
  invoice_number : option string;
  date : option string;
  total : Q;
  status : string
}.

Inductive Effect :=
| DeleteInvoice (invoiceId : Z)
| ToastSuccess (message : string)
| ToastError (message : string).

Inductive Response :=
| Resolved
| Rejected (detail : option string).

Record State := {
  invoices : list Invoice;
  filter : string;
  isLoading : bool;
  isExporting : bool;
  isDeleting : option Z;
  error : option string
}.

Definition detail_or (detail : option string) (fallback : string) : string :=
  match detail with
  | Some d => if d =? EmptyString then fallback else d
  | None => fallback
  end.

Definition set_list_error (l : list Invoice) (e : option string)
           (st : State) : State :=
  {| invoices := l; filter := filter st; isLoading := isLoading st;
     isExporting := isExporting st; isDeleting := None; error := e |}.

(** [confirmed] is the answer to the [confirm] dialog; [response] is how
    [deleteInvoice] settles.  The state is the one after [finally]. *)
Definition handleDelete (invoiceId : Z) (confirmed : bool)
           (response : Response) (st : State) : State * list Effect :=
  if negb confirmed then (st, [])
  else
    match response with
    | Resolved =>
        (set_list_error
           (List.filter (fun inv => negb (id inv =? invoiceId)%Z) (invoices st))
           None st,
         [DeleteInvoice invoiceId; ToastSuccess "Invoice deleted successfully!"])
    | Rejected detail =>
        let message := detail_or detail "Failed to delete invoice" in
        (set_list_error (invoices st) (Some message) st,
         [DeleteInvoice invoiceId; ToastError message])
    end.

(** The table shows [filteredInvoices], which is [invoices]. *)
Definition filteredInvoices (st : State) : list Invoice := invoices st.

End InvoiceList.

(* ------------------------------------------------------------------ *)
(** ** The field-extraction pipeline

    The pipeline runs in the backend ([backend/ocr.py], [backend/main.py]),
    which this development does not have; the front end only consumes its
    result.  What follows is written from the specification of the
    pipeline, section by section. *)

Module Pipeline.

(** Modelled from the spec: the data model of the absent [backend/ocr.py]
    (spec section 3).  A PageImage is one rasterized page. *)
Record PageImage := {
  width : Z;
  height : Z;
  pixels : list Byte.byte;
  index : nat                  (* 1-based *)
}.

(** Modelled from the spec: the bounding box of a token, in page-pixel
    coordinates (section 3, Token, absent from the sources). *)
Record BBox := { x : Z; y : Z; w : Z; h : Z }.

(** Modelled from the spec: one OCR-recognized unit (section 3, Token,
    absent from the sources). *)
Record Token := {
  text : string;
  bbox : BBox;
  confidence : Q;
  page_index : nat
}.

(** Modelled from the spec: the token sequence in reading order
    (section 3, TokenStream, absent from the sources). *)
Definition TokenStream := list Token.

(** Modelled from the spec: the four field kinds (section 3, absent from
    the sources). *)
Inductive FieldName := Vendor | Date | Total | InvoiceNumber.

(** Modelled from the spec: a normalized value, "string for
    vendor/invoice_number, ISO date for date, decimal for total"
    (section 3, absent from the sources). *)
Inductive FieldValue :=
| StringValue (s : string)
| DateValue (year month day : Z)
| DecimalValue (amount : Q).

(** Modelled from the spec: one extractor's proposal for one field
    (section 3, FieldCandidate, absent from the sources). *)
Record FieldCandidate := {
  field_name : FieldName;
  raw_value : string;
  normalized_value : FieldValue;
  source_tokens : list Token;
  local_certainty : Q
}.

(** Modelled from the spec: a field with its final score; [value] is
    [None] for null (section 3, ScoredField, absent from the sources). *)
Record ScoredField := {
  sf_field_name : FieldName;
  value : option FieldValue;
  sf_confidence : Q
}.

(** Modelled from the spec: the result contract of section 6 (produced by
    the absent backend). *)
Record ExtractionResult := {
  file_id : string;
  filename : string;
  vendor : ScoredField;
  date : ScoredField;
  total : ScoredField;
  invoice_number : ScoredField;
  degraded : bool
}.

(** Modelled from the spec: the scored field of a result by field kind
    (the four value/confidence pairs of the contract of section 6; absent
    backend). *)
Definition field (r : ExtractionResult) (f : FieldName) : ScoredField :=
  match f with
  | Vendor => vendor r
  | Date => date r
  | Total => total r
  | InvoiceNumber => invoice_number r
  end.

(** Modelled from the spec: the failures that section 7 surfaces to the
    caller as hard errors (the error taxonomy of the absent backend). *)
Inductive PipelineError := UnreadablePdf | PageLimitExceeded.

(** Modelled from the spec: what one extraction run hands back, an error
    or a result (sections 4.5 and 7; the absent backend). *)
Inductive Outcome :=
| Failed (e : PipelineError)
| Extracted (r : ExtractionResult).

(** Modelled from the spec: the configured values the spec leaves open
    (section 4.1 maximum page count, 4.2 per-page time budget, 4.3 label
    window N and the fixed certainty of an unanchored match); the absent
    backend's configuration. *)
Record Config := {
  max_pages : nat;
  page_time_budget : N;
  label_window : nat;
  fallback_certainty : Q
}.

(** Modelled from the spec: what the pipeline is bound to at startup and
    does not implement itself (absent from the sources): the PDF reader
    behind the Rasterizer ([None] when the bytes are no readable PDF),
    the OCR engine behind [locate] ([None] when it could not be
    initialized, section 4.2), and the vendor, date and invoice-number
    recognizers, whose heuristics section 4.3 only sketches. *)
Record Collaborators := {
  parse_pdf : list Byte.byte -> option (list PageImage);
  engine : option (PageImage -> TokenStream);
  recognize_vendor : TokenStream -> option FieldCandidate;
  recognize_date : TokenStream -> option FieldCandidate;
  recognize_invoice_number : TokenStream -> option FieldCandidate
}.

(** Modelled from the spec: the time the OCR of each page takes in one
    run, against which section 4.2 sets the per-page budget; it belongs
    to the run, not to the input (absent from the sources). *)
Definition Clock := PageImage -> N.

(** *** 4.1 Rasterizer *)

(** Modelled from the spec: [rasterize] of section 4.1 (absent backend):
    UnreadablePdf for bytes that are no readable PDF, PageLimitExceeded
    for a document beyond the configured maximum, the pages otherwise. *)
Definition rasterize (cfg : Config) (env : Collaborators)
           (pdf_bytes : list Byte.byte) : PipelineError + list PageImage :=
  match parse_pdf env pdf_bytes with
  | None => inl UnreadablePdf
  | Some pages =>
      if (max_pages cfg <? List.length pages)%nat
      then inl PageLimitExceeded
      else inr pages
  end.

(** *** 4.2 Text Locator *)

(** Modelled from the spec: [locate] on one page under the time budget of
    section 4.2 (absent backend): a page whose OCR exceeds the budget
    "contributes an empty token set". *)
Definition locate (cfg : Config) (ocr : PageImage -> TokenStream)
           (clock : Clock) (page : PageImage) : TokenStream :=
  if (page_time_budget cfg <? clock page)%N then [] else ocr page.

(** Modelled from the spec: the per-page streams concatenated in page
    order (section 4.2, absent backend). *)
Definition token_stream (cfg : Config) (ocr : PageImage -> TokenStream)
           (clock : Clock) (pages : list PageImage) : TokenStream :=
  flat_map (locate cfg ocr clock) pages.

(** *** 4.3 Field Extractor: the total *)

(** Modelled from the spec: a "total"-family label token, "total",
    "amount due", "balance due", case-insensitive (section 4.3, absent
    backend). *)
Definition is_total_label (t : Token) : bool :=
  let s := Js.toLowerCase (text t) in
  (s =? "total") || (s =? "amount due") || (s =? "balance due").

(** Modelled from the spec: the currency marker of a currency-like token,
    [$] or [USD] (section 4.3, absent backend). *)
Definition strip_marker (s : string) : bool * string :=
  match s with
  | String "$" r => (true, r)
  | String "U" (String "S" (String "D" r)) => (true, r)
  | _ => (false, s)
  end.

(** Modelled from the spec: a decimal numeral and the number of its
    decimal places (the "numeric pattern" of section 4.3, absent
    backend). *)
Definition parse_decimal (s : string) : option (Q * nat) :=
  let (ip, r1) := Js.take_digits s in
  match ip, r1 with
  | _ :: _, EmptyString => Some (inject_Z (Js.digits_value ip), 0%nat)
  | _ :: _, String "." r =>
      let (fp, r2) := Js.take_digits r in
      match fp, r2 with
      | _ :: _, EmptyString =>
          Some (Js.scale10 (Js.digits_value (ip ++ fp)%list)
                           (- Z.of_nat (List.length fp)),
                List.length fp)
      | _, _ => None
      end
  | _, _ => None
  end.

(** Modelled from the spec: the amount of a currency-like token, one
    marked [$] or [USD] or "matching a numeric pattern with exactly two
    decimal places" (section 4.3, absent backend). *)
Definition currency_amount (s : string) : option Q :=
  let (marked, body) := strip_marker s in
  match parse_decimal body with
  | Some (q, places) =>
      if marked || (places =? 2)%nat then Some (Qred q) else None
  | None => None
  end.

(** Modelled from the spec: a currency-like token met in the stream, with
    its position in reading order, its amount, and how many tokens away
    the nearest label is (the Total recognizer of section 4.3, absent
    backend). *)
Record Amount := {
  a_position : nat;
  a_token : Token;
  a_amount : Q;
  a_distance : nat
}.

(** Modelled from the spec: the tokens with their positions in reading
    order (section 3, TokenStream; absent backend). *)
Definition indexed (ts : TokenStream) : list (nat * Token) :=
  combine (seq 0 (List.length ts)) ts.

(** Modelled from the spec: where the "total"-family labels stand in the
    stream (section 4.3, absent backend). *)
Definition label_positions (ts : TokenStream) : list nat :=
  map fst (List.filter (fun it => is_total_label (snd it)) (indexed ts)).

(** Modelled from the spec: how many tokens apart two positions are
    ("within N tokens", section 4.3, absent backend). *)
Definition gap (i j : nat) : nat := ((i - j) + (j - i))%nat.

(** Modelled from the spec: the distance, in tokens, to the nearest label
    ("nearest a total-family label", section 4.3, absent backend). *)
Definition nearest (labels : list nat) (i : nat) : option nat :=
  match labels with
  | [] => None
  | j :: rest => Some (fold_left Nat.min (map (gap i) rest) (gap i j))
  end.

(** Modelled from the spec: [below u t], [u] is positioned strictly lower
    than [t], on a later page or further down the same page ("positioned
    lowest on the page", section 4.3, absent backend). *)
Definition below (u t : Token) : bool :=
  (page_index t <? page_index u)%nat
  || ((page_index t =? page_index u)%nat && (y (bbox t) <? y (bbox u))%Z).

(** Modelled from the spec: [beats a b], [a] is strictly nearer a label
    than [b], or as near and strictly lower ("the one nearest a
    total-family label and positioned lowest on the page wins", section
    4.3, absent backend). *)
Definition beats (a b : Amount) : bool :=
  (a_distance a <? a_distance b)%nat
  || ((a_distance a =? a_distance b)%nat && below (a_token a) (a_token b)).

(** Modelled from the spec: one step of the scan for the winner (section
    4.3, absent backend): the amount met replaces the best so far unless
    that one beats it, so that of two that tie the later in reading order
    stays ("invoices conventionally place the grand total last"). *)
Definition keep_better (best : option Amount) (c : Amount) : option Amount :=
  match best with
  | Some b => if beats b c then Some b else Some c
  | None => Some c
  end.

(** Modelled from the spec: the winner among several currency-like tokens
    (section 4.3, absent backend). *)
Definition pick (l : list Amount) : option Amount :=
  fold_left keep_better l None.

(** Modelled from the spec: the currency-like tokens of the stream with
    their positions and amounts (section 4.3, absent backend). *)
Definition currency_tokens (ts : TokenStream) : list (nat * Token * Q) :=
  flat_map (fun it =>
              match currency_amount (text (snd it)) with
              | Some q => [(fst it, snd it, q)]
              | None => []
              end) (indexed ts).

(** Modelled from the spec: the currency-like tokens "anchored near a
    label token ... within N tokens" (section 4.3, absent backend). *)
Definition anchored (n : nat) (ts : TokenStream) : list Amount :=
  flat_map (fun c =>
              match c with
              | (i, t, q) =>
                  match nearest (label_positions ts) i with
                  | Some d =>
                      if (d <=? n)%nat
                      then [{| a_position := i; a_token := t;
                               a_amount := q; a_distance := d |}]
                      else []
                  | None => []
                  end
              end) (currency_tokens ts).

(** Modelled from the spec: the currency-like tokens taken without regard
    to labels, for the "unanchored fallback match" (section 4.3, absent
    backend). *)
Definition unanchored (ts : TokenStream) : list Amount :=
  map (fun c =>
         match c with
         | (i, t, q) => {| a_position := i; a_token := t;
                           a_amount := q; a_distance := 0 |}
         end) (currency_tokens ts).

(** Modelled from the spec: the FieldCandidate for a winning amount
    (sections 3 and 4.3, absent backend): the decimal of the token, drawn
    from that token. *)
Definition total_candidate (a : Amount) (certainty : Q) : FieldCandidate :=
  {| field_name := Total;
     raw_value := text (a_token a);
     normalized_value := DecimalValue (a_amount a);
     source_tokens := [a_token a];
     local_certainty := certainty |}.

(** Modelled from the spec: the Total recognizer of section 4.3 (absent
    backend).  Among the currency-like tokens within N tokens of a
    "total"-family label, the one nearest its label wins and, among
    equally near ones, the one positioned lowest; that match is
    label-anchored (certainty 1.0).  With no such token the lowest
    currency-like token is the unanchored fallback, at the lower fixed
    certainty; with no currency-like token there is no candidate. *)
Definition recognize_total (cfg : Config) (ts : TokenStream)
  : option FieldCandidate :=
  match pick (anchored (label_window cfg) ts) with
  | Some a => Some (total_candidate a 1)
  | None =>
      match pick (unanchored ts) with
      | Some a => Some (total_candidate a (fallback_certainty cfg))
      | None => None
      end
  end.

(** *** 4.3 Field Extractor: one candidate per field *)

(** Modelled from the spec: the recognition strategy of each field kind,
    "run independently", each giving at most one candidate and none "when
    nothing plausible is found" (section 4.3, absent backend). *)
Definition recognizer (cfg : Config) (env : Collaborators) (f : FieldName)
  : TokenStream -> option FieldCandidate :=
  match f with
  | Vendor => recognize_vendor env
  | Date => recognize_date env
  | Total => recognize_total cfg
  | InvoiceNumber => recognize_invoice_number env
  end.

(** *** 4.4 Confidence Aggregator *)

(** Modelled from the spec: input (a) of section 4.4, the "mean OCR token
    confidence of source_tokens" (absent backend). *)
Definition mean_confidence (tokens : list Token) : Q :=
  fold_right Qplus 0 (map confidence tokens)
  / inject_Z (Z.of_nat (List.length tokens)).

(** Modelled from the spec: the blend of section 4.4, "the minimum, not
    the average, of the two inputs" (absent backend). *)
Definition blend (ocr_mean certainty : Q) : Q := Qmin ocr_mean certainty.

(** Modelled from the spec: [aggregate] of section 4.4 (absent backend);
    with no candidate it emits [ScoredField(value=null, confidence=0.0)]
    "directly, bypassing blending". *)
Definition aggregate (f : FieldName) (candidate : option FieldCandidate)
  : ScoredField :=
  match candidate with
  | None => {| sf_field_name := f; value := None; sf_confidence := 0 |}
  | Some c =>
      {| sf_field_name := f;
         value := Some (normalized_value c);
         sf_confidence :=
           blend (mean_confidence (source_tokens c)) (local_certainty c) |}
  end.

(** *** 4.5 Result Assembler *)

(** Modelled from the spec: the Result Assembler of section 4.5 (absent
    backend), a pure packaging of the four scored fields. *)
Definition assemble (file_identifier name : string)
           (score : FieldName -> ScoredField) (is_degraded : bool)
  : ExtractionResult :=
  {| file_id := file_identifier;
     filename := name;
     vendor := score Vendor;
     date := score Date;
     total := score Total;
     invoice_number := score InvoiceNumber;
     degraded := is_degraded |}.

(** Modelled from the spec: one extraction run of the absent backend,
    along the data flow of section 2 (PDF bytes, Rasterizer, Text
    Locator, Field Extractor, Confidence Aggregator, Result Assembler)
    with the failure policy of section 7: a Rasterizer failure is a hard
    error; an engine that could not be initialized gives the degraded
    result with every field absent. *)
Definition extract (cfg : Config) (env : Collaborators) (clock : Clock)
           (file_identifier name : string) (pdf_bytes : list Byte.byte)
  : Outcome :=
  match rasterize cfg env pdf_bytes with
  | inl e => Failed e
  | inr pages =>
      match engine env with
      | None =>
          Extracted (assemble file_identifier name
                              (fun f => aggregate f None) true)
      | Some ocr =>
          let tokens := token_stream cfg ocr clock pages in
          Extracted (assemble file_identifier name
                              (fun f => aggregate f (recognizer cfg env f tokens))
                              false)
      end
  end.

(** Modelled from the spec: whether the OCR engine could be initialized
    at startup; [plans/ocr-fix-plan.md] names the flag of the absent
    [backend/main.py] ("[OCR_AVAILABLE] flag controls functionality"). *)
Definition OCR_AVAILABLE (env : Collaborators) : bool :=
  match engine env with
  | Some _ => true
  | None => false
  end.

(** Modelled from the spec: the result of degraded mode, "all fields
    empty with confidence 0.0" and [degraded] set (sections 4.2 and 6,
    absent backend). *)
Definition empty_result (file_identifier name : string) : ExtractionResult :=
  assemble file_identifier name (fun f => aggregate f None) true.

(** Modelled from the spec: what the upload endpoint of the absent
    [backend/main.py] does with the bytes it received.  As
    [plans/ocr-fix-plan.md] describes the code ("Returns empty extraction
    results when OCR is unavailable") and as sections 4.2 and 9 require
    ("rather than failing the upload outright", "does not raise"), the
    flag is looked at before anything is done with the bytes; only with
    an engine is an extraction run made. *)
Definition upload (cfg : Config) (env : Collaborators) (clock : Clock)
           (file_identifier name : string) (pdf_bytes : list Byte.byte)
  : Outcome :=
  if OCR_AVAILABLE env
  then extract cfg env clock file_identifier name pdf_bytes
  else Extracted (empty_result file_identifier name).

End Pipeline.

(* ------------------------------------------------------------------ *)
(** ** The requirements' own words

    Predicates and functions that restate a requirement independently of
    the code, to compare the code with. *)

Module Wording.
Import Js.

(** "the vendor field is non-empty (non-blank after trimming when it is
    a string)" *)
Definition vendor_filled (v : value) : bool :=
  truthy v
  && match v with
     | Str s => negb (trim s =? EmptyString)
     | _ => true
     end.

(** "the total parses to a finite number strictly greater than 0" *)
Definition total_finite_positive (v : value) : bool :=
  match parseFloat v with
  | Fin q => negb (Qle_bool q 0)
  | _ => false
  end.

(** "the file's name ends case-insensitively with '.pdf'": the name is
    some stem followed by a dot and the letters p, d, f in either
    case. *)
Definition either_case (lower upper c : ascii) : Prop := c = lower \/ c = upper.

Definition pdf_extension (name : string) : Prop :=
  exists stem p d f,
    name = stem ++ String "." (String p (String d (String f EmptyString)))
    /\ either_case "p" "P" p /\ either_case "d" "D" d /\ either_case "f" "F" f.

(** "the previous list with exactly the entries whose id equals the
    deleted id removed, all other entries unchanged and in the same
    order" *)
Fixpoint without (k : Z) (l : list InvoiceList.Invoice) : list InvoiceList.Invoice :=
  match l with
  | [] => []
  | inv :: rest =>
      if (InvoiceList.id inv =? k)%Z then without k rest
      else inv :: without k rest
  end.

(** [subsequence s l]: [s] is [l] with some entries left out, the others
    in place. *)
Inductive subsequence {A} : list A -> list A -> Prop :=
| sub_nil : subsequence [] []
| sub_keep a s l : subsequence s l -> subsequence (a :: s) (a :: l)
| sub_drop a s l : subsequence s l -> subsequence s (a :: l).

End Wording.

(* ------------------------------------------------------------------ *)
(** ** [api.js] *)

Module Api.

(** [error.response.data.detail]: absent, a string, or the list FastAPI
    sends for validation errors, of which only each entry's [msg] is read
    ([None] for an entry without one). *)
Inductive Detail :=
| NoDetail
| DetailText (text : string)
| DetailErrors (msgs : list (option string)).

(** The error the response interceptor receives: the server answered
    with an error status ([data] is [None] for a body that is [null] or
    missing), the request got no answer, or it could not be sent. *)
Inductive AxiosError :=
| ServerResponded (data : option Detail)
| NoResponse (message : string)
| RequestNotSent (message : string).

(** [detail.map(err => err.msg).join(', ')]; [join] prints a missing
    element as the empty string. *)
Definition join_messages (msgs : list (option string)) : string :=
  String.concat ", "
    (map (fun m => match m with Some s => s | None => EmptyString end) msgs).

(** The [detail] of what the response interceptor rejects with.  Reading
    [detail] off a missing body throws inside the interceptor; what is
    thrown has no [detail]. *)
Definition rejection_detail (error : AxiosError) : option string :=
  match error with
  | ServerResponded (Some (DetailErrors msgs)) => Some (join_messages msgs)
  | ServerResponded (Some (DetailText text)) => Some text
  | ServerResponded (Some NoDetail) => None
  | ServerResponded None => None
  | NoResponse _ => Some "Network error - unable to connect to server"
  | RequestNotSent message => Some message
  end.

(** The query of [GET /invoices]. *)
Record InvoicesParams := {
  skip : Z;
  limit : Z;
  status : option string
}.

(** [getInvoices(status, skip, limit)]: [status] is sent when truthy. *)
Definition getInvoices (status : option string) (skip limit : Z)
  : InvoicesParams :=
  {| skip := skip;
     limit := limit;
     status := match status with
               | Some s => if s =? EmptyString then None else Some s
               | None => None
               end |}.

End Api.

(* ------------------------------------------------------------------ *)
(** ** [pages/Upload.jsx]: the progress timer of [processFile] *)

Module UploadProgress.

(** The progress shown while the request is pending, and whether the
    interval is still set. *)
Record Pending := {
  uploadProgress : Z;
  ticking : bool
}.

(** [processFile] sets the progress to 0 and starts the interval. *)
Definition start : Pending := {| uploadProgress := 0; ticking := true |}.

(** One firing of the interval, every 200 ms. *)
Definition tick (p : Pending) : Pending :=
  if ticking p then
    if (90 <=? uploadProgress p)%Z
    then {| uploadProgress := 90; ticking := false |}
    else {| uploadProgress := uploadProgress p + 10; ticking := true |}
  else p.

Definition after (n : nat) : Pending := Nat.iter n tick start.

(** What settling the request does to the progress: after a successful
    [await], [clearInterval(progressInterval); setUploadProgress(100)];
    in [catch], [setUploadProgress(0)] and nothing that clears the
    interval. *)
Definition settle (response : Upload.Response) (p : Pending) : Pending :=
  match response with
  | Upload.Resolved _ => {| uploadProgress := 100; ticking := false |}
  | Upload.Rejected _ => {| uploadProgress := 0; ticking := ticking p |}
  end.

(** The progress of an upload that settled with [response] after the
    timer had fired [elapsed] times, once the timer has had the time to
    fire [later] times more. *)
Definition settled (response : Upload.Response) (elapsed later : nat) : Pending :=
  Nat.iter later tick (settle response (after elapsed)).

End UploadProgress.

(* ------------------------------------------------------------------ *)
(** ** [components/VendorSelect.jsx] *)

Module VendorSelect.
Import Js.

Record Vendor := {
  id : Z;
  name : string
}.

(** [s.includes(t)]. *)
Fixpoint includes (s t : string) : bool :=
  prefix t s
  || match s with
     | String _ r => includes r t
     | EmptyString => false
     end.

Definition filteredVendors (vendors : list Vendor) (searchTerm : string)
  : list Vendor :=
  List.filter
    (fun vendor => includes (toLowerCase (name vendor)) (toLowerCase searchTerm))
    vendors.

Record State := {
  searchTerm : string;
  isOpen : bool
}.

(** What the user does to the component; [Blur] is the blur once its
    200 ms timer has fired. *)
Inductive Event :=
| Typed (text : string)
| Focus
| Blur
| Toggle
| Select (vendorName : string)
| CreateNew.

(** The calls the component makes on its props. *)
Inductive Call :=
| OnChange (vendorName : string)
| OnCreateNew.

Definition handleSelect (vendorName : string) (st : State)
  : State * list Call :=
  ({| searchTerm := EmptyString; isOpen := false |}, [OnChange vendorName]).

Definition handleCreateNew (st : State) : State * list Call :=
  ({| searchTerm := searchTerm st; isOpen := false |}, [OnCreateNew]).

Definition handle (e : Event) (st : State) : State * list Call :=
  match e with
  | Typed text => ({| searchTerm := text; isOpen := true |}, [])
  | Focus => ({| searchTerm := searchTerm st; isOpen := true |}, [])
  | Blur => ({| searchTerm := searchTerm st; isOpen := false |}, [])
  | Toggle => ({| searchTerm := searchTerm st; isOpen := negb (isOpen st) |}, [])
  | Select vendorName => handleSelect vendorName st
  | CreateNew => handleCreateNew st
  end.

(** The text in the box: [value || searchTerm]. *)
Definition shown (value : Js.value) (st : State) : Js.value :=
  or_else value (Str (searchTerm st)).

End VendorSelect.

(* ------------------------------------------------------------------ *)
(** ** [pages/Review.jsx]: the form, the vendor modal and the pager *)

Module ReviewPage.
Import Js.

(** The state of the page beside that of saving. *)
Record Page := {
  form : Review.State;
  vendors : list VendorSelect.Vendor;
  showNewVendorModal : bool;
  newVendorName : string;
  isCreatingVendor : bool;
  numPages : option Z;
  pageNumber : Z
}.

Definition with_form (f : Review.State) (pg : Page) : Page :=
  {| form := f; vendors := vendors pg;
     showNewVendorModal := showNewVendorModal pg;
     newVendorName := newVendorName pg;
     isCreatingVendor := isCreatingVendor pg;
     numPages := numPages pg; pageNumber := pageNumber pg |}.

Definition with_modal (open : bool) (pg : Page) : Page :=
  {| form := form pg; vendors := vendors pg;
     showNewVendorModal := open;
     newVendorName := newVendorName pg;
     isCreatingVendor := isCreatingVendor pg;
     numPages := numPages pg; pageNumber := pageNumber pg |}.

Definition with_formData (fd : Review.FormData) (st : Review.State)
  : Review.State :=
  {| Review.formData := fd; Review.isSaving := Review.isSaving st;
     Review.error := Review.error st |}.

(** [{ ...prev, [name]: value }] on the keys the form has; a key it does
    not have adds a property nothing reads. *)
Definition set_key (name value : string) (fd : Review.FormData)
  : Review.FormData :=
  let pick key old := if name =? key then Str value else old in
  {| Review.file_id := pick "file_id" (Review.file_id fd);
     Review.filename := pick "filename" (Review.filename fd);
     Review.vendor := pick "vendor" (Review.vendor fd);
     Review.date := pick "date" (Review.date fd);
     Review.total := pick "total" (Review.total fd);
     Review.invoice_number := pick "invoice_number" (Review.invoice_number fd);
     Review.status := if name =? "status" then value else Review.status fd |}.

(** [formData[name]] for the keys the form has. *)
Definition get_key (name : string) (fd : Review.FormData) : option value :=
  if name =? "file_id" then Some (Review.file_id fd)
  else if name =? "filename" then Some (Review.filename fd)
  else if name =? "vendor" then Some (Review.vendor fd)
  else if name =? "date" then Some (Review.date fd)
  else if name =? "total" then Some (Review.total fd)
  else if name =? "invoice_number" then Some (Review.invoice_number fd)
  else if name =? "status" then Some (Str (Review.status fd))
  else None.

(** [name] and [value] are those of [e.target]. *)
Definition handleInputChange (name value : string) (pg : Page) : Page :=
  with_form (with_formData (set_key name value (Review.formData (form pg)))
                           (form pg)) pg.

Definition set_vendor (value : string) (pg : Page) : Page :=
  let fd := Review.formData (form pg) in
  with_form
    (with_formData
       {| Review.file_id := Review.file_id fd;
          Review.filename := Review.filename fd;
          Review.vendor := Str value;
          Review.date := Review.date fd;
          Review.total := Review.total fd;
          Review.invoice_number := Review.invoice_number fd;
          Review.status := Review.status fd |}
       (form pg)) pg.

Definition handleVendorChange (value : string) (pg : Page) : Page :=
  if value =? "__new__" then with_modal true pg else set_vendor value pg.

Inductive Effect :=
| CreateVendor (name : string)
| ToastSuccess (message : string)
| ToastError (message : string).

(** How the awaited [createVendor] call settles. *)
Inductive Response :=
| Created (newVendor : VendorSelect.Vendor)
| Failed (error : Api.AxiosError).

Definition dquote : string := String (ascii_of_nat 34) EmptyString.

Definition handleCreateVendor (respond : string -> Response) (pg : Page)
  : Page * list Effect :=
  if trim (newVendorName pg) =? EmptyString then (pg, [])
  else
    match respond (newVendorName pg) with
    | Created newVendor =>
        let pg' := set_vendor (VendorSelect.name newVendor) pg in
        ({| form := {| Review.formData := Review.formData (form pg');
                       Review.isSaving := Review.isSaving (form pg);
                       Review.error := None |};
            vendors := (vendors pg ++ [newVendor])%list;
            showNewVendorModal := false;
            newVendorName := EmptyString;
            isCreatingVendor := false;
            numPages := numPages pg; pageNumber := pageNumber pg |},
         [CreateVendor (newVendorName pg);
          ToastSuccess ("Vendor " ++ dquote ++ VendorSelect.name newVendor
                        ++ dquote ++ " created successfully!")])
    | Failed error =>
        let message :=
          Review.detail_or (Api.rejection_detail error) "Failed to create vendor" in
        ({| form := {| Review.formData := Review.formData (form pg);
                       Review.isSaving := Review.isSaving (form pg);
                       Review.error := Some message |};
            vendors := vendors pg;
            showNewVendorModal := showNewVendorModal pg;
            newVendorName := newVendorName pg;
            isCreatingVendor := false;
            numPages := numPages pg; pageNumber := pageNumber pg |},
         [CreateVendor (newVendorName pg); ToastError message])
    end.

(** The props the page gives [VendorSelect]: [onChange] is
    [handleVendorChange], [onCreateNew] opens the modal. *)
Definition on_call (c : VendorSelect.Call) (pg : Page) : Page :=
  match c with
  | VendorSelect.OnChange v => handleVendorChange v pg
  | VendorSelect.OnCreateNew => with_modal true pg
  end.

(** One event on the vendor box, with the calls it makes carried out. *)
Definition vendor_event (e : VendorSelect.Event)
           (s : VendorSelect.State * Page) : VendorSelect.State * Page :=
  let (st, calls) := VendorSelect.handle e (fst s) in
  (st, fold_left (fun pg c => on_call c pg) calls (snd s)).

Definition vendor_events (es : list VendorSelect.Event)
           (s : VendorSelect.State * Page) : VendorSelect.State * Page :=
  fold_left (fun s e => vendor_event e s) es s.

(** *** The pager under the PDF *)

Inductive PagerButton := Previous | Next.

(** [setNumPages(numPages)] on a successful load. *)
Definition handlePdfLoadSuccess (n : Z) (pg : Page) : Page :=
  {| form := form pg; vendors := vendors pg;
     showNewVendorModal := showNewVendorModal pg;
     newVendorName := newVendorName pg;
     isCreatingVendor := isCreatingVendor pg;
     numPages := Some n; pageNumber := pageNumber pg |}.

(** [numPages && numPages > 1]: whether the pager is rendered. *)
Definition pager_shown (pg : Page) : bool :=
  match numPages pg with
  | Some n => (1 <? n)%Z
  | None => false
  end.

(** [Math.max(1, p - 1)] and [Math.min(numPages, p + 1)]. *)
Definition turn (n : Z) (b : PagerButton) (p : Z) : Z :=
  match b with
  | Previous => Z.max 1 (p - 1)
  | Next => Z.min n (p + 1)
  end.

(** [disabled={pageNumber === 1}] and [disabled={pageNumber === numPages}]. *)
Definition disabled (n : Z) (b : PagerButton) (p : Z) : bool :=
  match b with
  | Previous => (p =? 1)%Z
  | Next => (p =? n)%Z
  end.

End ReviewPage.

(* ------------------------------------------------------------------ *)
(** ** [pages/InvoiceList.jsx]: loading, status display and export *)

Module InvoiceTable.
Import InvoiceList.

(** The body of [GET /invoices]: the paginated format, with the rows under
    [data], or the bare array. *)
Inductive ListResponse :=
| Paged (data : list Invoice)
| Bare (rows : list Invoice).

(** [response.data || response]. *)
Definition rows_of (response : ListResponse) : list Invoice :=
  match response with
  | Paged data => data
  | Bare rows => rows
  end.

Inductive LoadOutcome :=
| Loaded (response : ListResponse)
| LoadFailed (error : Api.AxiosError).

Inductive Effect :=
| GetInvoices (params : Api.InvoicesParams)
| ExportCSV
| Download (filename : string) (data : string)
| ToastSuccess (message : string)
| ToastError (message : string).

Definition loadInvoices (respond : Api.InvoicesParams -> LoadOutcome)
           (st : State) : State * list Effect :=
  let status := if filter st =? "all" then None else Some (filter st) in
  let params := Api.getInvoices status 0 100 in
  match respond params with
  | Loaded response =>
      ({| invoices := rows_of response; filter := filter st;
          isLoading := false; isExporting := isExporting st;
          isDeleting := isDeleting st; error := None |},
       [GetInvoices params])
  | LoadFailed e =>
      ({| invoices := invoices st; filter := filter st;
          isLoading := false; isExporting := isExporting st;
          isDeleting := isDeleting st;
          error := Some (detail_or (Api.rejection_detail e)
                                   "Failed to load invoices") |},
       [GetInvoices params])
  end.


Definition getStatusColor (status : string) : string :=
  if status =? "approved" then "bg-green-500"
  else if status =? "rejected" then "bg-red-500"
  else "bg-gray-400".

Definition getStatusLabel (status : string) : string :=
  if status =? "approved" then "Approved"
  else if status =? "rejected" then "Rejected"
  else "Draft".

(** *** The name of the downloaded file *)

(** The characters [.] does not match: LF and CR (the others lie beyond
    U+00FF). *)
Definition is_line_terminator (c : ascii) : bool :=
  ((Js.code c =? 10) || (Js.code c =? 13))%N.

(** The longest run [.+] can take at the head of [s]. *)
Fixpoint take_line (s : string) : string :=
  match s with
  | String c r => if is_line_terminator c then EmptyString
                  else String c (take_line r)
  | EmptyString => EmptyString
  end.

Fixpoint strip_prefix (p s : string) : option string :=
  match p, s with
  | EmptyString, _ => Some s
  | String a p', String b s' => if Ascii.eqb a b then strip_prefix p' s' else None
  | String _ _, EmptyString => None
  end.

(** [contentDisposition.match(/filename=(.+)/)], group 1: at the leftmost
    place where [filename=] is followed by a character [.] matches, the
    rest of that line. *)
Fixpoint filenameMatch (s : string) : option string :=
  match s with
  | EmptyString => None
  | String _ r =>
      match strip_prefix "filename=" s with
      | Some rest =>
          match take_line rest with
          | EmptyString => filenameMatch r
          | captured => Some captured
          end
      | None => filenameMatch r
      end
  end.

(** [.replace] of every double quote by nothing. *)
Fixpoint remove_quotes (s : string) : string :=
  match s with
  | String c r => if (Js.code c =? 34)%N then remove_quotes r
                  else String c (remove_quotes r)
  | EmptyString => EmptyString
  end.

(** The [download] attribute, from [response.headers['content-disposition']]. *)
Definition download_filename (contentDisposition : option string) : string :=
  match contentDisposition with
  | Some header =>
      if header =? EmptyString then "billie-export.csv"
      else match filenameMatch header with
           | Some captured => remove_quotes captured
           | None => "billie-export.csv"
           end
  | None => "billie-export.csv"
  end.

Inductive ExportOutcome :=
| Exported (data : string) (contentDisposition : option string)
| ExportFailed (error : Api.AxiosError).

Definition decimal (n : nat) : string :=
  NilEmpty.string_of_uint (Nat.to_uint n).

Definition handleExport (outcome : ExportOutcome) (st : State)
  : State * list Effect :=
  match outcome with
  | Exported data contentDisposition =>
      ({| invoices := invoices st; filter := filter st;
          isLoading := isLoading st; isExporting := false;
          isDeleting := isDeleting st; error := None |},
       [ExportCSV;
        Download (download_filename contentDisposition) data;
        ToastSuccess ("Exported " ++ decimal (List.length (filteredInvoices st))
                      ++ " invoices to CSV!")])
  | ExportFailed e =>
      let message := detail_or (Api.rejection_detail e) "Failed to export CSV" in
      ({| invoices := invoices st; filter := filter st;
          isLoading := isLoading st; isExporting := false;
          isDeleting := isDeleting st; error := Some message |},
       [ExportCSV; ToastError message])
  end.

End InvoiceTable.

(* ------------------------------------------------------------------ *)
(** ** Terms used to state properties of the pages *)

Module Terms.

(** A character that is neither a double quote nor a line break. *)
Definition clean (c : ascii) : Prop :=
  Js.code c <> 34%N /\ InvoiceTable.is_line_terminator c = false.

(** [name] contains [term] when letter case is ignored: some stretch of
    it lower-cases to the lower-cased term. *)
Definition contains_ignoring_case (name term : string) : Prop :=
  exists before stretch behind,
    name = before ++ stretch ++ behind
    /\ Js.toLowerCase stretch = Js.toLowerCase term.

(** No vendor is picked from the list in the course of [events]. *)
Definition nothing_selected (events : list VendorSelect.Event) : Prop :=
  forall vendorName, ~ In (VendorSelect.Select vendorName) events.

(** The page right after it opens on [extractionResult]. *)
Definition opened (fileId : string)
           (extractionResult : option Review.ExtractionResult) : Review.State :=
  {| Review.formData := Review.initial_formData fileId extractionResult;
     Review.isSaving := false;
     Review.error := None |}.

(** Two forms that differ at most in the vendor. *)
Definition same_but_vendor (a b : Review.FormData) : Prop :=
  Review.file_id a = Review.file_id b
  /\ Review.filename a = Review.filename b
  /\ Review.date a = Review.date b
  /\ Review.total a = Review.total b
  /\ Review.invoice_number a = Review.invoice_number b
  /\ Review.status a = Review.status b.

(** The list page after a confirmed delete that the server accepted. *)
Definition delete (k : Z) (st : InvoiceList.State) : InvoiceList.State :=
  fst (InvoiceList.handleDelete k true InvoiceList.Resolved st).

(** *** The total, in the words of the requirement *)

(** A "total"-family label: the token reads total, amount due or balance
    due, in any letter case. *)
Definition total_label (t : Pipeline.Token) : Prop :=
  Js.toLowerCase (Pipeline.text t) = "total"
  \/ Js.toLowerCase (Pipeline.text t) = "amount due"
  \/ Js.toLowerCase (Pipeline.text t) = "balance due".

(** A label stands at position [j] of the stream. *)
Definition label_at (ts : Pipeline.TokenStream) (j : nat) : Prop :=
  exists t, nth_error ts j = Some t /\ total_label t.

(** How many tokens apart two positions are. *)
Definition apart (i j : nat) : Z := Z.abs (Z.of_nat i - Z.of_nat j).

(** The label nearest position [i] is [d] tokens away: some label stands
    at that distance and none stands nearer. *)
Definition nearest_label (ts : Pipeline.TokenStream) (i : nat) (d : Z) : Prop :=
  (exists j, label_at ts j /\ apart i j = d)
  /\ forall j, label_at ts j -> (d <= apart i j)%Z.

(** [lower u t]: [u] is positioned lower than [t], on a later page or
    further down the same page. *)
Definition lower (u t : Pipeline.Token) : Prop :=
  (Pipeline.page_index t < Pipeline.page_index u)%nat
  \/ (Pipeline.page_index t = Pipeline.page_index u
      /\ (Pipeline.y (Pipeline.bbox t) < Pipeline.y (Pipeline.bbox u))%Z).

(** The token [t] at position [i] is currency-like, reads the amount [q]
    and has a label within [n] tokens, the nearest one [d] tokens
    away. *)
Definition anchored_amount (ts : Pipeline.TokenStream) (n i : nat)
           (t : Pipeline.Token) (q : Q) (d : Z) : Prop :=
  nth_error ts i = Some t
  /\ Pipeline.currency_amount (Pipeline.text t) = Some q
  /\ nearest_label ts i d
  /\ (d <= Z.of_nat n)%Z.

(** The candidate the Total recognizer gives for the token [t] reading
    [q] when the match is label-anchored. *)
Definition anchored_total (t : Pipeline.Token) (q : Q) : Pipeline.FieldCandidate :=
  {| Pipeline.field_name := Pipeline.Total;
     Pipeline.raw_value := Pipeline.text t;
     Pipeline.normalized_value := Pipeline.DecimalValue q;
     Pipeline.source_tokens := [t];
     Pipeline.local_certainty := 1 |}.

End Terms.

(* ------------------------------------------------------------------ *)
(** ** Sample inputs *)

Module Samples.
Import Pipeline.

Definition sample_page (n : nat) : PageImage :=
  {| width := 1700; height := 2200; pixels := []; index := n |}.

Definition token_at (s : string) (top : Z) : Token :=
  {| text := s;
     bbox := {| x := 100; y := top; w := 200; h := 30 |};
     confidence := 9 # 10;
     page_index := 1 |}.

(** One page reading Subtotal $80.00, Tax $8.00, Total $88.00, top to
    bottom. *)
Definition invoice_tokens : TokenStream :=
  [token_at "Subtotal" 100; token_at "$80.00" 100;
   token_at "Tax" 140; token_at "$8.00" 140;
   token_at "Total" 180; token_at "$88.00" 180].

Definition sample_cfg : Config :=
  {| max_pages := 20; page_time_budget := 30000;
     label_window := 3; fallback_certainty := 1 # 2 |}.

(** A deployment whose PDF reader sees [pages] in every input and whose
    engine, when there is one, reads [invoice_tokens] off every page. *)
Definition deployment (pages : option (list PageImage)) (available : bool)
  : Collaborators :=
  {| parse_pdf := fun _ => pages;
     engine := if available then Some (fun _ => invoice_tokens) else None;
     recognize_vendor := fun _ => None;
     recognize_date := fun _ => None;
     recognize_invoice_number := fun _ => None |}.

Definition quick : Clock := fun _ => 800%N.

End Samples.

(* ================================================================== *)
(** * Properties *)

(** ** Numbers *)

Lemma lt_Fin (p q : Q) : Js.lt (Js.Fin p) (Js.Fin q) = true <-> p < q.
Proof.
  simpl. rewrite negb_true_iff. split; intro H.
  - apply Qnot_le_lt. intro L. apply Qle_bool_iff in L. congruence.
  - destruct (Qle_bool q p) eqn:E; [|reflexivity].
    apply Qle_bool_iff in E. exfalso. exact (Qlt_not_le _ _ H E).
Qed.

Lemma le_Fin (p q : Q) : Js.le (Js.Fin p) (Js.Fin q) = true <-> p <= q.
Proof. simpl. apply Qle_bool_iff. Qed.

Lemma lt_Fin_false (p q : Q) : Js.lt (Js.Fin p) (Js.Fin q) = false <-> q <= p.
Proof.
  rewrite <- not_true_iff_false, lt_Fin. split.
  - apply Qnot_lt_le.
  - intros H L. exact (Qlt_not_le _ _ L H).
Qed.

Lemma le_Fin_false (p q : Q) : Js.le (Js.Fin p) (Js.Fin q) = false <-> q < p.
Proof.
  rewrite <- not_true_iff_false, le_Fin. split.
  - apply Qnot_le_lt.
  - intros H L. exact (Qlt_not_le _ _ H L).
Qed.

(** [x || 0] on a number that is not [NaN] keeps its value. *)
Lemma number_or_zero (c : Q) :
  exists c', Js.number_or (Js.Fin c) (Js.Fin 0) = Js.Fin c' /\ c' == c.
Proof.
  unfold Js.number_or, Js.truthy_number. simpl.
  destruct (Qeq_bool c 0) eqn:E; simpl.
  - exists 0. split; [reflexivity|]. apply Qeq_bool_eq in E. symmetry. exact E.
  - exists c. split; reflexivity.
Qed.

(** ** Confidence bands *)

Lemma badge_of_score (c : Q) :
  (8 # 10 <= c -> Review.ConfidenceBadge (Js.Fin c) = Review.HighConfidence)
  /\ (0 < c < 8 # 10 -> Review.ConfidenceBadge (Js.Fin c) = Review.LowConfidence)
  /\ (c == 0 -> Review.ConfidenceBadge (Js.Fin c) = Review.NotDetected).
Proof.
  unfold Review.ConfidenceBadge, Js.ge, Js.gt. repeat split.
  - intro H. apply le_Fin in H. rewrite H. reflexivity.
  - intros [H0 H1]. apply le_Fin_false in H1. rewrite H1.
    apply lt_Fin in H0. rewrite H0. reflexivity.
  - intro H.
    assert (L : c < 8 # 10) by (rewrite H; reflexivity).
    apply le_Fin_false in L. rewrite L.
    assert (Z : c <= 0) by (rewrite H; apply Qle_refl).
    apply lt_Fin_false in Z. rewrite Z. reflexivity.
Qed.

Lemma highlight_of_score (c : Q) :
  Review.LowConfidenceHighlight (Js.Fin c) = true <-> 0 < c < 8 # 10.
Proof.
  unfold Review.LowConfidenceHighlight, Js.gt.
  rewrite andb_true_iff, !lt_Fin. tauto.
Qed.

Lemma bands_of_score (c : Q) :
  0 <= c ->
  let score := Js.number_or (Js.Fin c) (Js.Fin 0) in
  (8 # 10 <= c \/ 0 < c < 8 # 10 \/ c == 0)
  /\ (8 # 10 <= c ->
     Review.ConfidenceBadge score = Review.HighConfidence
     /\ Review.LowConfidenceHighlight score = false)
  /\ (0 < c < 8 # 10 ->
     Review.ConfidenceBadge score = Review.LowConfidence
     /\ Review.LowConfidenceHighlight score = true)
  /\ (c == 0 ->
     Review.ConfidenceBadge score = Review.NotDetected
     /\ Review.LowConfidenceHighlight score = false).
Proof.
  intros Hlo score.
  destruct (number_or_zero c) as [c' [E Hc]]. subst score. rewrite E.
  destruct (badge_of_score c') as [Hh [Hl Hn]].
  split; [|repeat split].
  - destruct (Qlt_le_dec c (8 # 10)) as [L|L]; [|left; exact L].
    right. apply Qle_lt_or_eq in Hlo. destruct Hlo as [P|P].
    + left. split; assumption.
    + right. symmetry. exact P.
  - apply Hh. rewrite Hc. assumption.
  - apply not_true_iff_false. rewrite highlight_of_score, Hc.
    intros [_ L]. exact (Qlt_not_le _ _ L H).
  - apply Hl. rewrite Hc. assumption.
  - apply highlight_of_score. rewrite Hc. assumption.
  - apply Hn. rewrite Hc. assumption.
  - apply not_true_iff_false. rewrite highlight_of_score, Hc.
    intros [L _]. rewrite H in L. discriminate L.
Qed.

Lemma score_of_reported (r : Review.ExtractionResult) (f : Review.Field) :
  Review.score (Review.confidence (Some r)) f
  = Js.number_or (Review.reported r f) (Js.Fin 0).
Proof. destruct f; reflexivity. Qed.

(** C1.  Let an extraction result report the confidence [c], in [0,1], for
    one of the four fields, and let [score] be what the page hands to that
    field's badge and highlight.  Then [c] falls in one of three bands: at
    [c >= 0.8] the badge reads high confidence; strictly between 0 and 0.8
    it reads low confidence and the field is highlighted for review; at
    exactly 0 it reads not detected.  Only the middle band is
    highlighted. *)
Theorem confidence_bands (r : Review.ExtractionResult) (f : Review.Field) (c : Q) :
  Review.reported r f = Js.Fin c ->
  0 <= c <= 1 ->
  let score := Review.score (Review.confidence (Some r)) f in
  (8 # 10 <= c \/ 0 < c < 8 # 10 \/ c == 0)
  /\ (8 # 10 <= c ->
     Review.ConfidenceBadge score = Review.HighConfidence
     /\ Review.LowConfidenceHighlight score = false)
  /\ (0 < c < 8 # 10 ->
     Review.ConfidenceBadge score = Review.LowConfidence
     /\ Review.LowConfidenceHighlight score = true)
  /\ (c == 0 ->
     Review.ConfidenceBadge score = Review.NotDetected
     /\ Review.LowConfidenceHighlight score = false).
Proof.
  intros E [Hlo _] score. subst score.
  rewrite score_of_reported, E. exact (bands_of_score c Hlo).
Qed.

Lemma confidence_bands_witness :
  let r := {| Review.er_filename := Js.Str "march.pdf";
              Review.er_vendor := Js.Str "Acme Supply Co.";
              Review.er_vendor_confidence := Js.Fin (1 # 2);
              Review.er_date := Js.Null;
              Review.er_date_confidence := Js.Fin 0;
              Review.er_total := Js.Num (Js.Fin 88);
              Review.er_total_confidence := Js.Fin (9 # 10);
              Review.er_invoice_number := Js.Null;
              Review.er_invoice_number_confidence := Js.Fin 0 |} in
  let score := Review.score (Review.confidence (Some r)) Review.VendorField in
  Review.ConfidenceBadge score = Review.LowConfidence
  /\ Review.LowConfidenceHighlight score = true.
Proof.
  intros r score.
  assert (R : 0 <= 1 # 2 <= 1) by (split; discriminate).
  apply (proj1 (proj2 (proj2
           (confidence_bands r Review.VendorField (1 # 2) eq_refl R)))).
  split; reflexivity.
Defined.

(** ** Deleting from the invoice list *)

Section Delete.
Import InvoiceList.
Variable k : Z.

Let kept (inv : Invoice) : bool := negb (id inv =? k)%Z.

Lemma filter_is_without (l : list Invoice) :
  List.filter kept l = Wording.without k l.
Proof.
  induction l as [|inv rest IH]; simpl; [reflexivity|].
  unfold kept at 1. destruct (id inv =? k)%Z; simpl; rewrite IH; reflexivity.
Qed.

Lemma without_subsequence (l : list Invoice) :
  Wording.subsequence (Wording.without k l) l.
Proof.
  induction l as [|inv rest IH]; simpl.
  - constructor.
  - destruct (id inv =? k)%Z; constructor; exact IH.
Qed.

Lemma without_In (l : list Invoice) (inv : Invoice) :
  In inv (Wording.without k l) <-> In inv l /\ id inv <> k.
Proof.
  rewrite <- filter_is_without, filter_In. unfold kept.
  rewrite negb_true_iff, Z.eqb_neq. tauto.
Qed.
End Delete.

(** C10.  After a confirmed delete that the server accepts, the list shown
    is the previous one without the entries whose id is the deleted id:
    every other entry is still there, nothing else appeared, and the
    entries kept are in their previous order.  After a cancelled
    confirmation the whole state is unchanged and nothing was requested;
    after a request the server rejected the list shown is unchanged. *)
Theorem delete_removes_exactly (k : Z) (st : InvoiceList.State)
        (response : InvoiceList.Response) (detail : option string) :
  let deleted := fst (InvoiceList.handleDelete k true InvoiceList.Resolved st) in
  let cancelled := InvoiceList.handleDelete k false response st in
  let rejected :=
    fst (InvoiceList.handleDelete k true (InvoiceList.Rejected detail) st) in
  InvoiceList.filteredInvoices deleted
    = Wording.without k (InvoiceList.filteredInvoices st)
  /\ (forall inv,
        In inv (InvoiceList.filteredInvoices deleted)
        <-> In inv (InvoiceList.filteredInvoices st) /\ InvoiceList.id inv <> k)
  /\ Wording.subsequence (InvoiceList.filteredInvoices deleted)
                         (InvoiceList.filteredInvoices st)
  /\ cancelled = (st, [])
  /\ InvoiceList.filteredInvoices rejected = InvoiceList.filteredInvoices st.
Proof.
  unfold InvoiceList.filteredInvoices, InvoiceList.handleDelete; simpl.
  rewrite filter_is_without.
  split; [reflexivity|].
  split; [intro inv; apply without_In|].
  split; [apply without_subsequence|].
  split; reflexivity.
Qed.


(** ** The extraction run *)




(** C3.  When the OCR engine is unavailable, an upload raises no error,
    whatever bytes it carries, readable or not and of any page count: it
    returns a result that carries the file identifier and the filename,
    is flagged degraded, and has a null value and confidence 0 in each of
    the four fields. *)
Theorem unavailable_engine_degrades cfg env clock fid name pdf :
  Pipeline.engine env = None ->
  (forall e, Pipeline.upload cfg env clock fid name pdf <> Pipeline.Failed e)
  /\ exists r,
      Pipeline.upload cfg env clock fid name pdf = Pipeline.Extracted r
      /\ Pipeline.degraded r = true
      /\ Pipeline.file_id r = fid
      /\ Pipeline.filename r = name
      /\ forall f, Pipeline.sf_field_name (Pipeline.field r f) = f
                   /\ Pipeline.value (Pipeline.field r f) = None
                   /\ Pipeline.sf_confidence (Pipeline.field r f) = 0.
Proof.
  intro He. unfold Pipeline.upload, Pipeline.OCR_AVAILABLE. rewrite He.
  split; [intros e H; discriminate H|].
  eexists. split; [reflexivity|]. repeat split; destruct f; reflexivity.
Qed.

Lemma unavailable_engine_degrades_witness :
  exists r,
    Pipeline.upload Samples.sample_cfg (Samples.deployment None false)
      Samples.quick "f-01" "march.pdf" [] = Pipeline.Extracted r
    /\ Pipeline.degraded r = true
    /\ Pipeline.file_id r = "f-01"
    /\ Pipeline.filename r = "march.pdf"
    /\ forall f, Pipeline.sf_field_name (Pipeline.field r f) = f
                 /\ Pipeline.value (Pipeline.field r f) = None
                 /\ Pipeline.sf_confidence (Pipeline.field r f) = 0.
Proof.
  apply (proj2 (unavailable_engine_degrades Samples.sample_cfg
                  (Samples.deployment None false) Samples.quick
                  "f-01" "march.pdf" [] eq_refl)).
Defined.

(** ** Blended confidence *)

Section Blend.
Import Pipeline.

Let total_confidence (l : list Token) : Q := fold_right Qplus 0 (map confidence l).

Lemma total_confidence_bounds (l : list Token) :
  (forall t, In t l -> 0 <= confidence t <= 1) ->
  0 <= total_confidence l <= inject_Z (Z.of_nat (List.length l)).
Proof.
  induction l as [|t rest IH]; intro H.
  - split; apply Qle_refl.
  - destruct (H t (or_introl eq_refl)) as [L U].
    destruct IH as [L' U']; [intros u Hu; apply H; right; exact Hu|].
    change (total_confidence (t :: rest))
      with (confidence t + total_confidence rest).
    change (List.length (t :: rest)) with (S (List.length rest)).
    rewrite Nat2Z.inj_succ, <- Z.add_1_l, inject_Z_plus.
    split.
    + rewrite <- (Qplus_0_l 0). apply Qplus_le_compat; assumption.
    + apply Qplus_le_compat; assumption.
Qed.

Lemma mean_confidence_bounds (l : list Token) :
  l <> [] ->
  (forall t, In t l -> 0 <= confidence t <= 1) ->
  0 <= mean_confidence l <= 1.
Proof.
  intros Hne H. destruct (total_confidence_bounds l H) as [L U].
  assert (P : 0 < inject_Z (Z.of_nat (List.length l))).
  { destruct l as [|t rest]; [contradiction|].
    unfold Qlt. simpl Qnum. simpl Qden. simpl List.length. lia. }
  unfold mean_confidence. fold (total_confidence l). split.
  - apply Qle_shift_div_l; [exact P|]. rewrite Qmult_0_l. exact L.
  - apply Qle_shift_div_r; [exact P|]. rewrite Qmult_1_l. exact U.
Qed.

End Blend.

(** C4.  For a candidate drawn from at least one token, with token
    confidences and local certainty in [0,1], the confidence of the scored
    field lies in [0,1], is the minimum of the mean OCR confidence of the
    source tokens and the local certainty, and exceeds neither. *)
Theorem blended_confidence_is_minimum f (c : Pipeline.FieldCandidate) :
  Pipeline.source_tokens c <> [] ->
  (forall t, In t (Pipeline.source_tokens c) -> 0 <= Pipeline.confidence t <= 1) ->
  0 <= Pipeline.local_certainty c <= 1 ->
  let ocr_mean := Pipeline.mean_confidence (Pipeline.source_tokens c) in
  let score := Pipeline.sf_confidence (Pipeline.aggregate f (Some c)) in
  0 <= score <= 1
  /\ score = Qmin ocr_mean (Pipeline.local_certainty c)
  /\ score <= ocr_mean
  /\ score <= Pipeline.local_certainty c
  /\ (score == ocr_mean \/ score == Pipeline.local_certainty c).
Proof.
  intros Hne Ht [Ll Lu] ocr_mean score.
  destruct (mean_confidence_bounds _ Hne Ht) as [Ml Mu]. fold ocr_mean in Ml, Mu.
  assert (E : score = Qmin ocr_mean (Pipeline.local_certainty c)) by reflexivity.
  rewrite E. repeat split.
  - apply Q.min_glb; assumption.
  - eapply Qle_trans; [apply Q.le_min_l | exact Mu].
  - apply Q.le_min_l.
  - apply Q.le_min_r.
  - destruct (Q.min_spec ocr_mean (Pipeline.local_certainty c)) as [[_ M]|[_ M]];
      [left | right]; exact M.
Qed.

Lemma blended_confidence_is_minimum_witness :
  let t := Samples.token_at "$88.00" 180 in
  let c := {| Pipeline.field_name := Pipeline.Total;
              Pipeline.raw_value := "$88.00";
              Pipeline.normalized_value := Pipeline.DecimalValue 88;
              Pipeline.source_tokens := [t; t];
              Pipeline.local_certainty := 1 # 2 |} in
  Pipeline.sf_confidence (Pipeline.aggregate Pipeline.Total (Some c)) == 1 # 2
  /\ 0 <= Pipeline.sf_confidence (Pipeline.aggregate Pipeline.Total (Some c)) <= 1.
Proof.
  intros t c. split; [reflexivity|].
  apply (blended_confidence_is_minimum Pipeline.Total c).
  - discriminate.
  - intros u [E|[E|[]]]; subst u; split; discriminate.
  - split; discriminate.
Defined.

(** ** Saving a reviewed invoice *)

(** C8.  The check that [handleSave] makes before the request lets
    through totals that are no finite number above 0.  With the vendor
    filled in, a total that reads Infinity, as a string or as a number,
    raises no validation message on a press of Save & Approve, and the
    createInvoice request goes out with an infinite total; so does a
    truthy total that is neither a string nor a number, such as [true],
    which no branch of the check looks at and which goes out as NaN.  A
    total of 88.00 is sent as 88 and a total of -5 is held back. *)
Lemma infinite_total_is_sent :
  let form total :=
    {| Review.file_id := Js.Str "f-01";
       Review.filename := Js.Str "march.pdf";
       Review.vendor := Js.Str "Acme Supply Co.";
       Review.date := Js.Str "2024-03-04";
       Review.total := total;
       Review.invoice_number := Js.Str "INV-2024-001";
       Review.status := "draft" |} in
  let press total :=
    Review.onClick Review.SaveAndApprove (fun _ => Review.Resolved)
      {| Review.formData := form total;
         Review.isSaving := false;
         Review.error := None |} in
  let sent total := map Review.i_total (Review.requests (snd (press total))) in
  Wording.vendor_filled (Js.Str "Acme Supply Co.") = true
  /\ Wording.total_finite_positive (Js.Str "Infinity") = false
  /\ Review.validationErrors (form (Js.Str "Infinity")) = []
  /\ sent (Js.Str "Infinity") = [Js.PosInf]
  /\ Wording.total_finite_positive (Js.Num Js.PosInf) = false
  /\ sent (Js.Num Js.PosInf) = [Js.PosInf]
  /\ Wording.total_finite_positive (Js.Bool true) = false
  /\ Review.validationErrors (form (Js.Bool true)) = []
  /\ sent (Js.Bool true) = [Js.NaN]
  /\ Wording.total_finite_positive (Js.Str "88.00") = true
  /\ sent (Js.Str "88.00") = [Js.Fin 88]
  /\ Wording.total_finite_positive (Js.Str "-5") = false
  /\ sent (Js.Str "-5") = [].
Proof. repeat split; vm_compute; reflexivity. Qed.

(** ** Choosing a file to upload *)

Section Suffix.
Import Js.

Lemma substring_all (s : string) : substring 0 (String.length s) s = s.
Proof. induction s as [|c r IH]; simpl; [reflexivity | rewrite IH; reflexivity]. Qed.

Lemma substring_skip (pre suf : string) :
  substring (String.length pre) (String.length suf) (pre ++ suf) = suf.
Proof. induction pre as [|c r IH]; simpl; [apply substring_all | exact IH]. Qed.

Lemma substring_split (s : string) (k : nat) :
  (k <= String.length s)%nat ->
  s = substring 0 k s ++ substring k (String.length s - k) s.
Proof.
  revert k. induction s as [|c r IH]; intros k Hk.
  - destruct k; reflexivity.
  - destruct k as [|k]; simpl.
    + rewrite substring_all. reflexivity.
    + simpl in Hk. rewrite <- IH by lia. reflexivity.
Qed.

Lemma length_append (a b : string) :
  String.length (a ++ b) = (String.length a + String.length b)%nat.
Proof. induction a as [|c r IH]; simpl; [reflexivity | rewrite IH; reflexivity]. Qed.

Lemma endsWith_iff (s suf : string) :
  endsWith s suf = true <-> exists pre, s = pre ++ suf.
Proof.
  unfold endsWith. rewrite andb_true_iff, Nat.leb_le, String.eqb_eq. split.
  - intros [L E].
    exists (substring 0 (String.length s - String.length suf) s).
    pose proof (substring_split s (String.length s - String.length suf)) as H.
    replace (String.length s - (String.length s - String.length suf))%nat
      with (String.length suf) in H by lia.
    rewrite E in H. apply H. lia.
  - intros [pre E]. subst s. rewrite length_append. split; [lia|].
    replace (String.length pre + String.length suf - String.length suf)%nat
      with (String.length pre) by lia.
    apply substring_skip.
Qed.

Lemma toLowerCase_append (a b : string) :
  toLowerCase (a ++ b) = toLowerCase a ++ toLowerCase b.
Proof. induction a as [|c r IH]; simpl; [reflexivity | rewrite IH; reflexivity]. Qed.

Lemma toLowerCase_split (s a b : string) :
  toLowerCase s = a ++ b ->
  exists a' b', s = a' ++ b' /\ toLowerCase a' = a /\ toLowerCase b' = b.
Proof.
  revert s. induction a as [|c r IH]; intros s E.
  - exists EmptyString, s. repeat split. exact E.
  - destruct s as [|d s]; [discriminate E|].
    simpl in E. injection E as Ec Er.
    destruct (IH s Er) as [a' [b' [Es [Ea Eb]]]].
    exists (String d a'), b'. simpl. rewrite Ea, Ec, <- Es. repeat split; assumption.
Qed.

Ltac by_cases_on_char c :=
  destruct c as [[] [] [] [] [] [] [] []]; vm_compute;
  let E := fresh "E" in (intro E; try discriminate E; auto).

Lemma lower_is_dot (c : ascii) : lower_char c = "."%char -> c = "."%char.
Proof. by_cases_on_char c. Qed.

Lemma lower_is_p (c : ascii) :
  lower_char c = "p"%char -> Wording.either_case "p" "P" c.
Proof. unfold Wording.either_case. by_cases_on_char c. Qed.

Lemma lower_is_d (c : ascii) :
  lower_char c = "d"%char -> Wording.either_case "d" "D" c.
Proof. unfold Wording.either_case. by_cases_on_char c. Qed.

Lemma lower_is_f (c : ascii) :
  lower_char c = "f"%char -> Wording.either_case "f" "F" c.
Proof. unfold Wording.either_case. by_cases_on_char c. Qed.

End Suffix.

Lemma is_pdf_name_iff (file : Upload.File) :
  Upload.is_pdf_name file = true <-> Wording.pdf_extension (Upload.name file).
Proof.
  unfold Upload.is_pdf_name, Wording.pdf_extension. rewrite endsWith_iff. split.
  - intros [pre E].
    destruct (toLowerCase_split _ _ _ E) as [stem [ext [Es [_ Ee]]]].
    destruct ext as [|c0 [|p [|d [|f [|x ext]]]]]; try discriminate Ee.
    simpl in Ee. injection Ee as E0 Ep Ed Ef.
    apply lower_is_dot in E0. subst c0.
    exists stem, p, d, f. split; [exact Es|].
    split; [apply lower_is_p | split; [apply lower_is_d | apply lower_is_f]];
      assumption.
  - intros [stem [p [d [f [E [[Hp|Hp] [[Hd|Hd] [Hf|Hf]]]]]]]]; subst p d f;
      exists (Js.toLowerCase stem); rewrite E, toLowerCase_append; reflexivity.
Qed.

(** C9, as stated, fails for a drop of several files: only the first is
    looked at, so a second file whose name ends in .pdf is not uploaded. *)
Lemma second_dropped_pdf_not_uploaded :
  let first := {| Upload.name := "march.pdf"; Upload.size := 48213;
                  Upload.type := "application/pdf" |} in
  let second := {| Upload.name := "april.PDF"; Upload.size := 51090;
                   Upload.type := "application/pdf" |} in
  let st := {| Upload.isDragging := true; Upload.isUploading := false;
               Upload.uploadProgress := 0; Upload.error := None |} in
  let sent :=
    Upload.requests
      (snd (Upload.handleDrop [first; second]
              (fun _ => Upload.Resolved "f-01") st)) in
  Upload.is_pdf_name second = true /\ sent = [first] /\ ~ In second sent.
Proof.
  split; [reflexivity|]. split; [reflexivity|].
  intros [E|[]]. discriminate E.
Qed.

Lemma processFile_requests respond file st :
  Upload.requests (snd (Upload.processFile respond file st)) = [file].
Proof. unfold Upload.processFile. destruct (respond file); reflexivity. Qed.

(** C9, amended.  On a drop the first file dropped, and on a selection the
    file selected, is uploaded if and only if its name ends
    case-insensitively with ".pdf", and then it alone is uploaded;
    otherwise no request is made and the error reads "Only PDF files are
    supported".  With no file at all nothing is requested.  The size of
    the file plays no part: two files with the same name are treated
    alike, whatever their sizes and whatever the notice "Maximum file
    size: 10MB" says. *)
Theorem upload_only_pdf_names (dropped : bool) (file : Upload.File)
        (others : list Upload.File) (respond : Upload.File -> Upload.Response)
        (st : Upload.State) :
  let handler := if dropped then Upload.handleDrop else Upload.handleFileSelect in
  let sent files := Upload.requests (snd (handler files respond st)) in
  (Wording.pdf_extension (Upload.name file) -> sent (file :: others) = [file])
  /\ (~ Wording.pdf_extension (Upload.name file) ->
      sent (file :: others) = []
      /\ Upload.error (fst (handler (file :: others) respond st))
         = Some "Only PDF files are supported")
  /\ sent [] = []
  /\ (forall bytes,
        let resized := {| Upload.name := Upload.name file; Upload.size := bytes;
                          Upload.type := Upload.type file |} in
        sent (resized :: others) = [] <-> sent (file :: others) = [])
  /\ Upload.size_notice = "Maximum file size: 10MB".
Proof.
  intros handler sent.
  assert (S : forall f, sent (f :: others)
                        = if Upload.is_pdf_name f then [f] else []).
  { intro f. unfold sent, handler, Upload.handleDrop, Upload.handleFileSelect.
    destruct dropped; destruct (Upload.is_pdf_name f); simpl;
      try reflexivity; apply processFile_requests. }
  split; [|split; [|split; [|split; [|reflexivity]]]].
  - intro P. apply is_pdf_name_iff in P. rewrite S, P. reflexivity.
  - intro P. rewrite <- is_pdf_name_iff in P. apply not_true_is_false in P.
    split; [rewrite S, P; reflexivity|].
    unfold handler, Upload.handleDrop, Upload.handleFileSelect.
    destruct dropped; rewrite P; reflexivity.
  - unfold sent, handler. destruct dropped; reflexivity.
  - intros bytes resized. rewrite !S.
    change (Upload.is_pdf_name resized) with (Upload.is_pdf_name file).
    destruct (Upload.is_pdf_name file); split; intro H;
      try reflexivity; discriminate H.
Qed.

Lemma upload_only_pdf_names_witness :
  let file := {| Upload.name := "Invoice-0042.PDF"; Upload.size := 52428800;
                 Upload.type := "application/pdf" |} in
  let st := {| Upload.isDragging := true; Upload.isUploading := false;
               Upload.uploadProgress := 0; Upload.error := None |} in
  Wording.pdf_extension (Upload.name file)
  /\ Upload.requests
       (snd (Upload.handleDrop [file] (fun _ => Upload.Rejected None) st))
     = [file].
Proof.
  intros file st.
  assert (P : Wording.pdf_extension (Upload.name file)).
  { exists "Invoice-0042", "P"%char, "D"%char, "F"%char.
    split; [reflexivity|]. repeat split; right; reflexivity. }
  split; [exact P|].
  exact (proj1 (upload_only_pdf_names true file [] (fun _ => Upload.Rejected None) st) P).
Defined.

(** ** The total *)

Section PickTotal.
Import Pipeline.

Lemma below_iff (u t : Token) :
  below u t = true
  <-> (page_index t < page_index u)%nat
      \/ (page_index t = page_index u /\ (y (bbox t) < y (bbox u))%Z).
Proof.
  unfold below.
  rewrite orb_true_iff, andb_true_iff, Nat.ltb_lt, Nat.eqb_eq, Z.ltb_lt.
  tauto.
Qed.

Lemma beats_iff (a b : Amount) :
  beats a b = true
  <-> (a_distance a < a_distance b)%nat
      \/ (a_distance a = a_distance b /\ below (a_token a) (a_token b) = true).
Proof.
  unfold beats. rewrite orb_true_iff, andb_true_iff, Nat.ltb_lt, Nat.eqb_eq.
  tauto.
Qed.

Ltac order_facts :=
  repeat match goal with
         | H : beats _ _ = true |- _ => rewrite beats_iff, below_iff in H
         | H : beats _ _ = false |- _ =>
             apply not_true_iff_false in H; rewrite beats_iff, below_iff in H
         | |- beats _ _ = false =>
             apply not_true_iff_false; rewrite beats_iff, below_iff; intro
         | |- beats _ _ = true => rewrite beats_iff, below_iff
         end.

Lemma beats_irreflexive (a : Amount) : beats a a = false.
Proof. order_facts. lia. Qed.

Lemma beats_transitive (a b c : Amount) :
  beats a b = true -> beats b c = true -> beats a c = true.
Proof. intros. order_facts. lia. Qed.

(** Not being beaten carries over: the order is that of a ranking. *)
Lemma unbeaten_transitive (a b c : Amount) :
  beats a b = false -> beats b c = false -> beats a c = false.
Proof. intros. order_facts. lia. Qed.

Lemma pick_unfold (l : list Amount) : pick l = fold_left keep_better l None.
Proof. reflexivity. Qed.

Lemma fold_keep_better (l : list Amount) (b : Amount) :
  exists w,
    fold_left keep_better l (Some b) = Some w
    /\ (w = b \/ In w l)
    /\ beats b w = false
    /\ forall c, In c l -> beats c w = false.
Proof.
  revert b. induction l as [|c rest IH]; intro b; simpl.
  - exists b. repeat split; [left; reflexivity | apply beats_irreflexive |].
    intros c [].
  - destruct (beats b c) eqn:B.
    + destruct (IH b) as [w [E [M [U A]]]].
      exists w. repeat split; [exact E | tauto | exact U |].
      intros d [D|D]; [subst d | exact (A d D)].
      destruct (beats c w) eqn:C; [|reflexivity].
      rewrite (beats_transitive b c w B C) in U. discriminate U.
    + destruct (IH c) as [w [E [M [U A]]]].
      exists w. repeat split; [exact E | | |].
      * destruct M as [M|M]; right; [left; symmetry; exact M | right; exact M].
      * exact (unbeaten_transitive b c w B U).
      * intros d [D|D]; [subst d; exact U | exact (A d D)].
Qed.

(** The winner is one of the amounts, and none of them beats it. *)
Lemma pick_unbeaten (l : list Amount) (w : Amount) :
  pick l = Some w -> In w l /\ forall c, In c l -> beats c w = false.
Proof.
  rewrite pick_unfold. destruct l as [|b rest]; [discriminate|]. simpl.
  destruct (fold_keep_better rest b) as [w' [E [M [U A]]]].
  rewrite E. intro H. injection H as H. subst w'. split.
  - destruct M as [M|M]; [left; symmetry; exact M | right; exact M].
  - intros c [C|C]; [subst c; exact U | exact (A c C)].
Qed.

Lemma pick_some (l : list Amount) : l <> [] -> exists w, pick l = Some w.
Proof.
  rewrite pick_unfold. destruct l as [|b rest]; [contradiction|]. intros _. simpl.
  destruct (fold_keep_better rest b) as [w [E _]]. exists w. exact E.
Qed.

(** An amount at the end of the list that none before it beats wins. *)
Lemma pick_last (l : list Amount) (z : Amount) :
  (forall c, In c l -> beats c z = false) -> pick (l ++ [z]) = Some z.
Proof.
  intro H. rewrite pick_unfold, fold_left_app. simpl.
  destruct l as [|b rest]; [reflexivity|]. simpl.
  destruct (fold_keep_better rest b) as [w [E [M _]]]. rewrite E. simpl.
  rewrite H; [reflexivity|].
  destruct M as [M|M]; [left; symmetry; exact M | right; exact M].
Qed.

(** The anchored winner is as near a label as any anchored amount, and no
    equally near amount is positioned lower. *)
Lemma anchored_winner (cfg : Config) (ts : TokenStream) (w : Amount) :
  pick (anchored (label_window cfg) ts) = Some w ->
  recognize_total cfg ts = Some (total_candidate w 1)
  /\ In w (anchored (label_window cfg) ts)
  /\ forall c, In c (anchored (label_window cfg) ts) ->
       (a_distance w <= a_distance c)%nat
       /\ (a_distance c = a_distance w -> below (a_token c) (a_token w) = false).
Proof.
  intro E. unfold recognize_total. rewrite E. split; [reflexivity|].
  destruct (pick_unbeaten _ _ E) as [Hw U]. split; [exact Hw|].
  intros c Hc. specialize (U c Hc).
  apply not_true_iff_false in U. rewrite beats_iff in U. split.
  - apply Nat.nlt_ge. intro L. apply U. left. exact L.
  - intro D. apply not_true_iff_false. intro B. apply U. right. split; assumption.
Qed.

(** Membership in the stream by position. *)
Lemma in_combine_seq (l : TokenStream) (s i : nat) (t : Token) :
  In (i, t) (combine (seq s (List.length l)) l)
  <-> (s <= i)%nat /\ nth_error l (i - s) = Some t.
Proof.
  revert s. induction l as [|u rest IH]; intro s; simpl.
  - split; [tauto|]. intros [_ H]. destruct (i - s)%nat; discriminate H.
  - rewrite IH. split.
    + intros [E|[L H]].
      * injection E as Ei Et. subst. rewrite Nat.sub_diag. split; [lia|reflexivity].
      * split; [lia|]. replace (i - s)%nat with (S (i - S s)) by lia. exact H.
    + intros [L H]. destruct (i - s)%nat as [|k] eqn:K.
      * left. injection H as H. subst u. f_equal. lia.
      * right. split; [lia|]. replace (i - S s)%nat with k by lia. exact H.
Qed.

Lemma in_indexed (ts : TokenStream) (i : nat) (t : Token) :
  In (i, t) (indexed ts) <-> nth_error ts i = Some t.
Proof.
  unfold indexed. rewrite in_combine_seq, Nat.sub_0_r.
  split; [tauto | intro H; split; [lia | exact H]].
Qed.

Lemma in_currency_tokens (ts : TokenStream) (i : nat) (t : Token) (q : Q) :
  In (i, t, q) (currency_tokens ts)
  <-> nth_error ts i = Some t /\ currency_amount (text t) = Some q.
Proof.
  unfold currency_tokens. rewrite in_flat_map. split.
  - intros [[j u] [Hin H]]. simpl in H.
    destruct (currency_amount (text u)) as [q'|] eqn:C; [|contradiction].
    destruct H as [H|[]]. injection H as Hi Ht Hq. subst.
    apply in_indexed in Hin. split; assumption.
  - intros [Hn C]. exists (i, t). split; [apply in_indexed; exact Hn|].
    simpl. rewrite C. left. reflexivity.
Qed.

(** What it is to be an anchored amount: a currency-like token of the
    stream whose nearest label is within the window. *)
Lemma in_anchored (n : nat) (ts : TokenStream) (a : Amount) :
  In a (anchored n ts)
  <-> nth_error ts (a_position a) = Some (a_token a)
      /\ currency_amount (text (a_token a)) = Some (a_amount a)
      /\ nearest (label_positions ts) (a_position a) = Some (a_distance a)
      /\ (a_distance a <= n)%nat.
Proof.
  unfold anchored. rewrite in_flat_map. split.
  - intros [[[i t] q] [Hin H]]. apply in_currency_tokens in Hin.
    destruct (nearest (label_positions ts) i) as [d|] eqn:Nr; [|contradiction].
    destruct (d <=? n)%nat eqn:L; [|contradiction].
    destruct H as [H|[]]. subst a. simpl. apply Nat.leb_le in L. tauto.
  - intros [Hn [C [Nr L]]].
    exists (a_position a, a_token a, a_amount a).
    split; [apply in_currency_tokens; split; assumption|].
    rewrite Nr. apply Nat.leb_le in L. rewrite L.
    left. destruct a; reflexivity.
Qed.

(** The recognizer's test for a label is the requirement's. *)
Lemma is_total_label_iff (t : Token) :
  is_total_label t = true <-> Terms.total_label t.
Proof.
  unfold is_total_label, Terms.total_label. cbv zeta.
  rewrite !orb_true_iff, !String.eqb_eq. tauto.
Qed.

Lemma in_label_positions (ts : TokenStream) (j : nat) :
  In j (label_positions ts) <-> Terms.label_at ts j.
Proof.
  unfold label_positions, Terms.label_at. rewrite in_map_iff. split.
  - intros [[k t] [E H]]. simpl in E. subst k.
    apply filter_In in H. destruct H as [Hin L]. simpl in L.
    exists t. split; [apply in_indexed; exact Hin|].
    apply is_total_label_iff. exact L.
  - intros [t [Hn L]]. exists (j, t). split; [reflexivity|].
    apply filter_In. split; [apply in_indexed; exact Hn|].
    simpl. apply is_total_label_iff. exact L.
Qed.

Lemma gap_apart (i j : nat) : Z.of_nat (gap i j) = Terms.apart i j.
Proof. unfold gap, Terms.apart. lia. Qed.

Lemma apart_nonnegative (i j : nat) : (0 <= Terms.apart i j)%Z.
Proof. unfold Terms.apart. lia. Qed.

(** The least of a number and a list of numbers. *)
Lemma fold_min (l : list nat) (a : nat) :
  (fold_left Nat.min l a = a \/ In (fold_left Nat.min l a) l)
  /\ (fold_left Nat.min l a <= a)%nat
  /\ forall x, In x l -> (fold_left Nat.min l a <= x)%nat.
Proof.
  revert a. induction l as [|b rest IH]; intro a; simpl.
  - split; [left; reflexivity|]. split; [lia | intros x []].
  - destruct (IH (Nat.min a b)) as [M [L A]]. split; [|split].
    + destruct M as [M|M]; [|right; right; exact M].
      rewrite M. destruct (Nat.min_spec a b) as [[_ E]|[_ E]]; rewrite E;
        [left | right; left]; reflexivity.
    + lia.
    + intros x [X|X]; [subst x; lia | exact (A x X)].
Qed.

Lemma nearest_sound (labels : list nat) (i d : nat) :
  nearest labels i = Some d ->
  (exists j, In j labels /\ gap i j = d)
  /\ forall j, In j labels -> (d <= gap i j)%nat.
Proof.
  destruct labels as [|j rest]; [discriminate|]. simpl. intro H.
  injection H as H.
  destruct (fold_min (map (gap i) rest) (gap i j)) as [M [L A]].
  rewrite H in M, L, A. split.
  - destruct M as [M|M].
    + exists j. split; [left; reflexivity | symmetry; exact M].
    + apply in_map_iff in M. destruct M as [k [E K]].
      exists k. split; [right; exact K | exact E].
  - intros k [K|K]; [subst k; exact L|]. apply A. apply in_map. exact K.
Qed.

(** The distance the recognizer computes is the distance to the nearest
    label of the stream. *)
Lemma nearest_label_iff (ts : TokenStream) (i d : nat) :
  nearest (label_positions ts) i = Some d
  <-> Terms.nearest_label ts i (Z.of_nat d).
Proof.
  split.
  - intro H. destruct (nearest_sound _ _ _ H) as [[j [Hj E]] A]. split.
    + exists j. split; [apply in_label_positions; exact Hj|].
      rewrite <- gap_apart, E. reflexivity.
    + intros k Hk. apply in_label_positions in Hk.
      rewrite <- gap_apart. apply inj_le. exact (A k Hk).
  - intros [[j [Hj E]] A].
    destruct (nearest (label_positions ts) i) as [d0|] eqn:N.
    + destruct (nearest_sound _ _ _ N) as [[j0 [Hj0 E0]] A0].
      f_equal.
      assert (L1 : (d0 <= gap i j)%nat)
        by (apply A0; apply in_label_positions; exact Hj).
      assert (L2 : (Z.of_nat d <= Terms.apart i j0)%Z)
        by (apply A; apply in_label_positions; exact Hj0).
      rewrite <- gap_apart in E, L2. lia.
    + apply in_label_positions in Hj.
      destruct (label_positions ts); [destruct Hj | discriminate N].
Qed.

(** The amounts the recognizer anchors are the anchored amounts of the
    requirement. *)
Lemma anchored_amount_iff (n : nat) (ts : TokenStream) (i : nat)
      (t : Token) (q : Q) (d : Z) :
  Terms.anchored_amount ts n i t q d
  <-> exists a, In a (anchored n ts)
                /\ a_position a = i /\ a_token a = t /\ a_amount a = q
                /\ Z.of_nat (a_distance a) = d.
Proof.
  unfold Terms.anchored_amount. split.
  - intros [Hn [C [N L]]].
    assert (P : (0 <= d)%Z).
    { destruct N as [[j [_ E]] _]. rewrite <- E. apply apart_nonnegative. }
    exists {| a_position := i; a_token := t; a_amount := q;
              a_distance := Z.to_nat d |}.
    split; [|simpl; repeat split; lia].
    apply in_anchored. simpl. split; [exact Hn|]. split; [exact C|].
    split; [|lia].
    apply nearest_label_iff. rewrite Z2Nat.id by exact P. exact N.
  - intros [a [Ha [Ei [Et [Eq Ed]]]]]. apply in_anchored in Ha.
    destruct Ha as [Hn [C [N L]]]. subst i t q d.
    split; [exact Hn|]. split; [exact C|].
    split; [apply nearest_label_iff; exact N | lia].
Qed.

(** When some amount is anchored the recognizer gives an anchored amount
    that none is nearer its label than and none as near is lower than. *)
Lemma anchored_total_wins (cfg : Config) (ts : TokenStream) (i : nat)
      (t : Token) (q : Q) (d : Z) :
  Terms.anchored_amount ts (label_window cfg) i t q d ->
  exists iw w qw dw,
    Terms.anchored_amount ts (label_window cfg) iw w qw dw
    /\ recognize_total cfg ts = Some (Terms.anchored_total w qw)
    /\ forall i' t' q' d',
         Terms.anchored_amount ts (label_window cfg) i' t' q' d' ->
         (dw <= d')%Z /\ (d' = dw -> ~ Terms.lower t' w).
Proof.
  intro H. apply anchored_amount_iff in H. destruct H as [a [Ha _]].
  destruct (pick_some (anchored (label_window cfg) ts)) as [w E].
  { intro N. rewrite N in Ha. exact Ha. }
  destruct (anchored_winner cfg ts w E) as [R [Hw U]].
  exists (a_position w), (a_token w), (a_amount w), (Z.of_nat (a_distance w)).
  split; [|split].
  - apply anchored_amount_iff. exists w. repeat split. exact Hw.
  - exact R.
  - intros i' t' q' d' H'. apply anchored_amount_iff in H'.
    destruct H' as [c [Hc [_ [Et [_ Ed]]]]]. subst t' d'.
    destruct (U c Hc) as [L B]. split; [lia|].
    intros D Lw. apply Nat2Z.inj in D. specialize (B D).
    apply not_true_iff_false in B. apply B. apply below_iff. exact Lw.
Qed.

(** An anchored amount that is as near its label as any other and lower
    than every other is the total. *)
Lemma nearest_and_lowest_is_total (cfg : Config) (ts : TokenStream)
      (i : nat) (t : Token) (q : Q) (d : Z) :
  Terms.anchored_amount ts (label_window cfg) i t q d ->
  (forall i' t' q' d',
     Terms.anchored_amount ts (label_window cfg) i' t' q' d' ->
     i' = i \/ ((d <= d')%Z /\ Terms.lower t t')) ->
  recognize_total cfg ts = Some (Terms.anchored_total t q).
Proof.
  intros H Hdom.
  destruct (anchored_total_wins cfg ts i t q d H)
    as [iw [w [qw [dw [Hw [R U]]]]]].
  rewrite R. destruct (Hdom iw w qw dw Hw) as [E|[L B]].
  - subst iw. destruct H as [Hn [C _]]. destruct Hw as [Hn' [C' _]].
    assert (Et : w = t) by congruence. subst w.
    assert (Eq : qw = q) by congruence. subst qw. reflexivity.
  - exfalso. destruct (U i t q d H) as [L' B'].
    apply B'; [lia | exact B].
Qed.

(** The page of the example, with any boxes that run down the page. *)
Lemma subtotal_tax_total (cfg : Config) (page : nat)
      (b0 b1 b2 b3 b4 b5 : BBox) (c0 c1 c2 c3 c4 c5 : Q) :
  (y b0 <= y b1 <= y b2 /\ y b2 <= y b3 <= y b4 /\ y b4 <= y b5)%Z ->
  let token s b c :=
    {| text := s; bbox := b; confidence := c; page_index := page |} in
  let ts := [token "Subtotal" b0 c0; token "$80.00" b1 c1;
             token "Tax" b2 c2; token "$8.00" b3 c3;
             token "Total" b4 c4; token "$88.00" b5 c5] in
  exists certainty,
    recognize_total cfg ts
    = Some {| field_name := Total;
              raw_value := "$88.00";
              normalized_value := DecimalValue 88;
              source_tokens := [token "$88.00" b5 c5];
              local_certainty := certainty |}.
Proof.
  intros Hy token ts.
  assert (CT : currency_tokens ts
               = [(1%nat, token "$80.00" b1 c1, 80);
                  (3%nat, token "$8.00" b3 c3, 8);
                  (5%nat, token "$88.00" b5 c5, 88)]) by reflexivity.
  assert (LP : label_positions ts = [4%nat]) by reflexivity.
  unfold recognize_total, anchored, unanchored. rewrite CT, LP.
  destruct (label_window cfg) as [|[|[|n]]]; simpl flat_map; simpl map.
  - simpl pick at 1. cbv iota.
    exists (fallback_certainty cfg).
    match goal with
    | |- context [pick [?a; ?b; ?c]] =>
        change [a; b; c] with ([a; b] ++ [c])%list; rewrite pick_last
    end; [reflexivity|].
    intros c [E|[E|[]]]; subst c; order_facts; unfold gap in *; simpl in *;
      match goal with H : _ \/ _ |- _ => clear - H Hy end; lia.
  - exists 1.
    match goal with
    | |- context [pick [?b; ?c]] =>
        change [b; c] with ([b] ++ [c])%list; rewrite pick_last
    end; [reflexivity|].
    intros c [E|[]]; subst c; order_facts; unfold gap in *; simpl in *;
      match goal with H : _ \/ _ |- _ => clear - H Hy end; lia.
  - exists 1.
    match goal with
    | |- context [pick [?b; ?c]] =>
        change [b; c] with ([b] ++ [c])%list; rewrite pick_last
    end; [reflexivity|].
    intros c [E|[]]; subst c; order_facts; unfold gap in *; simpl in *;
      match goal with H : _ \/ _ |- _ => clear - H Hy end; lia.
  - exists 1.
    match goal with
    | |- context [pick [?a; ?b; ?c]] =>
        change [a; b; c] with ([a; b] ++ [c])%list; rewrite pick_last
    end; [reflexivity|].
    intros c [E|[E|[]]]; subst c; order_facts; unfold gap in *; simpl in *;
      match goal with H : _ \/ _ |- _ => clear - H Hy end; lia.
Qed.

(** A page on which the amount beside the label is neither the last nor
    the lowest: Total, $88.00, Deposit, $20.00, with any boxes on any
    pages. *)
Lemma total_beside_deposit (cfg : Config) (t0 t1 t2 t3 : Token) :
  text t0 = "Total" -> text t1 = "$88.00" ->
  text t2 = "Deposit" -> text t3 = "$20.00" ->
  (1 <= label_window cfg)%nat ->
  recognize_total cfg [t0; t1; t2; t3] = Some (Terms.anchored_total t1 88).
Proof.
  intros E0 E1 E2 E3 Hw.
  assert (CT : currency_tokens [t0; t1; t2; t3]
               = [(1%nat, t1, 88); (3%nat, t3, 20)]).
  { unfold currency_tokens, indexed. simpl. rewrite E0, E1, E2, E3. reflexivity. }
  assert (LP : label_positions [t0; t1; t2; t3] = [0%nat]).
  { unfold label_positions, indexed, is_total_label. simpl.
    rewrite E0, E1, E2, E3. reflexivity. }
  unfold recognize_total, anchored. rewrite CT, LP.
  destruct (label_window cfg) as [|[|[|n]]]; [lia| | |]; reflexivity.
Qed.

(** A stream in which the lowest of two equally near amounts comes first:
    $88.00, Balance Due, $20.00 on one page, the first amount further down
    than the last. *)
Lemma lowest_of_equally_near (cfg : Config) (t0 t1 t2 : Token) :
  text t0 = "$88.00" -> text t1 = "Balance Due" -> text t2 = "$20.00" ->
  page_index t0 = page_index t2 ->
  (y (bbox t2) < y (bbox t0))%Z ->
  (1 <= label_window cfg)%nat ->
  recognize_total cfg [t0; t1; t2] = Some (Terms.anchored_total t0 88).
Proof.
  intros E0 E1 E2 Ep Hy Hw.
  assert (CT : currency_tokens [t0; t1; t2]
               = [(0%nat, t0, 88); (2%nat, t2, 20)]).
  { unfold currency_tokens, indexed. simpl. rewrite E0, E1, E2. reflexivity. }
  assert (LP : label_positions [t0; t1; t2] = [1%nat]).
  { unfold label_positions, indexed, is_total_label. simpl.
    rewrite E0, E1, E2. reflexivity. }
  assert (B : below t0 t2 = true).
  { apply below_iff. right. split; [symmetry; exact Ep | exact Hy]. }
  unfold recognize_total, anchored. rewrite CT, LP.
  destruct (label_window cfg) as [|n]; [lia|].
  cbn [flat_map nearest map fold_left gap Nat.sub Nat.add Nat.leb app].
  cbn [pick fold_left keep_better].
  unfold beats. cbn [a_distance a_token Nat.ltb Nat.leb Nat.eqb orb andb].
  rewrite B. reflexivity.
Qed.

End PickTotal.

(** C6.  Call a currency-like token anchored when a "total"-family label
    (total, amount due, balance due, in any letter case) stands within
    the window of N tokens, and its distance the number of tokens to the
    nearest such label.  Whenever a stream has an anchored token, the
    extracted total is the amount of an anchored token that no anchored
    token is nearer its label than, and that no equally near one is
    positioned lower than; an anchored token that is as near as any other
    and lower than every other is the extracted total.  On the page that
    reads Subtotal, $80.00, Tax, $8.00, Total, $88.00 from top to bottom
    the extracted total is 88.00, whatever the window and the boxes.  On
    Total, $88.00, Deposit, $20.00 it is 88.00, the amount beside the
    label, not the last or lowest one; on $88.00, Balance Due, $20.00
    with the first amount lower on the page than the last it is 88.00,
    the lower of two equally near amounts. *)
Theorem total_is_nearest_and_lowest :
  (forall cfg env ts i t q d,
     Terms.anchored_amount ts (Pipeline.label_window cfg) i t q d ->
     exists iw w qw dw,
       Terms.anchored_amount ts (Pipeline.label_window cfg) iw w qw dw
       /\ Pipeline.recognizer cfg env Pipeline.Total ts
          = Some (Terms.anchored_total w qw)
       /\ Pipeline.value
            (Pipeline.aggregate Pipeline.Total
               (Pipeline.recognizer cfg env Pipeline.Total ts))
          = Some (Pipeline.DecimalValue qw)
       /\ forall i' t' q' d',
            Terms.anchored_amount ts (Pipeline.label_window cfg) i' t' q' d' ->
            (dw <= d')%Z /\ (d' = dw -> ~ Terms.lower t' w))
  /\ (forall cfg env ts i t q d,
        Terms.anchored_amount ts (Pipeline.label_window cfg) i t q d ->
        (forall i' t' q' d',
           Terms.anchored_amount ts (Pipeline.label_window cfg) i' t' q' d' ->
           i' = i \/ ((d <= d')%Z /\ Terms.lower t t')) ->
        Pipeline.value
          (Pipeline.aggregate Pipeline.Total
             (Pipeline.recognizer cfg env Pipeline.Total ts))
        = Some (Pipeline.DecimalValue q))
  /\ (forall cfg env page b0 b1 b2 b3 b4 b5 c0 c1 c2 c3 c4 c5,
        (Pipeline.y b0 <= Pipeline.y b1 <= Pipeline.y b2
         /\ Pipeline.y b2 <= Pipeline.y b3 <= Pipeline.y b4
         /\ Pipeline.y b4 <= Pipeline.y b5)%Z ->
        let token s b c :=
          {| Pipeline.text := s; Pipeline.bbox := b;
             Pipeline.confidence := c; Pipeline.page_index := page |} in
        Pipeline.value
          (Pipeline.aggregate Pipeline.Total
             (Pipeline.recognizer cfg env Pipeline.Total
                [token "Subtotal" b0 c0; token "$80.00" b1 c1;
                 token "Tax" b2 c2; token "$8.00" b3 c3;
                 token "Total" b4 c4; token "$88.00" b5 c5]))
        = Some (Pipeline.DecimalValue 88))
  /\ (forall cfg env t0 t1 t2 t3,
        Pipeline.text t0 = "Total" -> Pipeline.text t1 = "$88.00" ->
        Pipeline.text t2 = "Deposit" -> Pipeline.text t3 = "$20.00" ->
        (1 <= Pipeline.label_window cfg)%nat ->
        Pipeline.value
          (Pipeline.aggregate Pipeline.Total
             (Pipeline.recognizer cfg env Pipeline.Total [t0; t1; t2; t3]))
        = Some (Pipeline.DecimalValue 88))
  /\ (forall cfg env t0 t1 t2,
        Pipeline.text t0 = "$88.00" -> Pipeline.text t1 = "Balance Due" ->
        Pipeline.text t2 = "$20.00" ->
        Pipeline.page_index t0 = Pipeline.page_index t2 ->
        (Pipeline.y (Pipeline.bbox t2) < Pipeline.y (Pipeline.bbox t0))%Z ->
        (1 <= Pipeline.label_window cfg)%nat ->
        Pipeline.value
          (Pipeline.aggregate Pipeline.Total
             (Pipeline.recognizer cfg env Pipeline.Total [t0; t1; t2]))
        = Some (Pipeline.DecimalValue 88)).
Proof.
  split; [|split; [|split; [|split]]].
  - intros cfg env ts i t q d H.
    destruct (anchored_total_wins cfg ts i t q d H)
      as [iw [w [qw [dw [Hw [R U]]]]]].
    exists iw, w, qw, dw. unfold Pipeline.recognizer. rewrite R.
    split; [exact Hw|]. split; [reflexivity|]. split; [reflexivity | exact U].
  - intros cfg env ts i t q d H Hdom. unfold Pipeline.recognizer.
    rewrite (nearest_and_lowest_is_total cfg ts i t q d H Hdom). reflexivity.
  - intros cfg env page b0 b1 b2 b3 b4 b5 c0 c1 c2 c3 c4 c5 Hy token.
    unfold Pipeline.recognizer.
    destruct (subtotal_tax_total cfg page b0 b1 b2 b3 b4 b5 c0 c1 c2 c3 c4 c5 Hy)
      as [certainty E].
    subst token. cbv beta. rewrite E. reflexivity.
  - intros cfg env t0 t1 t2 t3 E0 E1 E2 E3 Hw. unfold Pipeline.recognizer.
    rewrite (total_beside_deposit cfg t0 t1 t2 t3 E0 E1 E2 E3 Hw). reflexivity.
  - intros cfg env t0 t1 t2 E0 E1 E2 Ep Hy Hw. unfold Pipeline.recognizer.
    rewrite (lowest_of_equally_near cfg t0 t1 t2 E0 E1 E2 Ep Hy Hw). reflexivity.
Qed.

Lemma total_is_nearest_and_lowest_witness :
  exists iw w qw dw,
    Terms.anchored_amount Samples.invoice_tokens
      (Pipeline.label_window Samples.sample_cfg) iw w qw dw
    /\ Pipeline.recognizer Samples.sample_cfg
         (Samples.deployment (Some [Samples.sample_page 1]) true)
         Pipeline.Total Samples.invoice_tokens
       = Some (Terms.anchored_total w qw)
    /\ Pipeline.value
         (Pipeline.aggregate Pipeline.Total
            (Pipeline.recognizer Samples.sample_cfg
               (Samples.deployment (Some [Samples.sample_page 1]) true)
               Pipeline.Total Samples.invoice_tokens))
       = Some (Pipeline.DecimalValue qw)
    /\ forall i' t' q' d',
         Terms.anchored_amount Samples.invoice_tokens
           (Pipeline.label_window Samples.sample_cfg) i' t' q' d' ->
         (dw <= d')%Z /\ (d' = dw -> ~ Terms.lower t' w).
Proof.
  apply (proj1 total_is_nearest_and_lowest Samples.sample_cfg
           (Samples.deployment (Some [Samples.sample_page 1]) true)
           Samples.invoice_tokens 5%nat (Samples.token_at "$88.00" 180) 88 1%Z).
  split; [reflexivity|]. split; [reflexivity|]. split; [|simpl; lia].
  split.
  - exists 4%nat. split; [|reflexivity].
    exists (Samples.token_at "Total" 180).
    split; [reflexivity | left; reflexivity].
  - intros j [t [Hn Hl]].
    destruct (Nat.eq_dec j 5) as [E|E]; [|unfold Terms.apart; lia].
    subst j. simpl in Hn. injection Hn as Hn. subst t.
    destruct Hl as [H|[H|H]]; vm_compute in H; discriminate H.
Defined.

(* ================================================================== *)
(** * Further properties of the pages *)

(** ** What a failed request shows *)

Lemma detail_or_nonempty (detail : option string) (fallback : string) :
  fallback <> EmptyString -> Review.detail_or detail fallback <> EmptyString.
Proof.
  intro F. unfold Review.detail_or. destruct detail as [d|]; [|exact F].
  destruct (d =? EmptyString) eqn:E; [exact F|].
  intro H. subst d. discriminate E.
Qed.

Lemma detail_or_text (d fallback : string) :
  d <> EmptyString -> Review.detail_or (Some d) fallback = d.
Proof.
  intro H. unfold Review.detail_or.
  destruct (d =? EmptyString) eqn:E; [|reflexivity].
  apply String.eqb_eq in E. contradiction.
Qed.

(** X1.  Whatever way a request fails, the page that made it ends with a
    non-empty error message, and shows the same message in an error toast:
    saving a valid form, uploading, deleting, loading the list, exporting
    and creating a vendor.  So the error banner, drawn only for a truthy
    [error], always appears after a failure. *)
Theorem failed_request_shows_message (e : Api.AxiosError) :
  (forall status st,
     Review.validationErrors (Review.formData st) = [] ->
     let r := Review.handleSave status
                (fun _ => Review.Rejected (Api.rejection_detail e)) st in
     exists m, m <> EmptyString /\ Review.error (fst r) = Some m
               /\ In (Review.ToastError m) (snd r))
  /\ (forall file st,
        let r := Upload.processFile
                   (fun _ => Upload.Rejected (Api.rejection_detail e)) file st in
        exists m, m <> EmptyString /\ Upload.error (fst r) = Some m
                  /\ In (Upload.ToastError m) (snd r))
  /\ (forall k st,
        let r := InvoiceList.handleDelete k true
                   (InvoiceList.Rejected (Api.rejection_detail e)) st in
        exists m, m <> EmptyString /\ InvoiceList.error (fst r) = Some m
                  /\ In (InvoiceList.ToastError m) (snd r))
  /\ (forall st,
        let r := InvoiceTable.loadInvoices
                   (fun _ => InvoiceTable.LoadFailed e) st in
        exists m, m <> EmptyString /\ InvoiceList.error (fst r) = Some m)
  /\ (forall st,
        let r := InvoiceTable.handleExport (InvoiceTable.ExportFailed e) st in
        exists m, m <> EmptyString /\ InvoiceList.error (fst r) = Some m
                  /\ In (InvoiceTable.ToastError m) (snd r))
  /\ (forall pg,
        Js.trim (ReviewPage.newVendorName pg) <> EmptyString ->
        let r := ReviewPage.handleCreateVendor
                   (fun _ => ReviewPage.Failed e) pg in
        exists m, m <> EmptyString
                  /\ Review.error (ReviewPage.form (fst r)) = Some m
                  /\ In (ReviewPage.ToastError m) (snd r)).
Proof.
  repeat split.
  - intros status st V. unfold Review.handleSave. rewrite V. simpl.
    eexists. split; [|split; [reflexivity | right; left; reflexivity]].
    apply detail_or_nonempty. discriminate.
  - intros file st. unfold Upload.processFile. simpl.
    eexists. split; [|split; [reflexivity | right; left; reflexivity]].
    apply (detail_or_nonempty _ "Failed to process PDF file"). discriminate.
  - intros k st. unfold InvoiceList.handleDelete. simpl.
    eexists. split; [|split; [reflexivity | right; left; reflexivity]].
    apply (detail_or_nonempty _ "Failed to delete invoice"). discriminate.
  - intros st. unfold InvoiceTable.loadInvoices. simpl.
    eexists. split; [|reflexivity].
    apply (detail_or_nonempty _ "Failed to load invoices"). discriminate.
  - intros st. unfold InvoiceTable.handleExport. simpl.
    eexists. split; [|split; [reflexivity | right; left; reflexivity]].
    apply (detail_or_nonempty _ "Failed to export CSV"). discriminate.
  - intros pg T. unfold ReviewPage.handleCreateVendor.
    apply String.eqb_neq in T. rewrite T. simpl.
    eexists. split; [|split; [reflexivity | right; left; reflexivity]].
    apply detail_or_nonempty. discriminate.
Qed.

Lemma failed_request_shows_message_witness :
  let pg := {| ReviewPage.form :=
                 {| Review.formData := Review.initial_formData "f-01" None;
                    Review.isSaving := false; Review.error := None |};
               ReviewPage.vendors := [];
               ReviewPage.showNewVendorModal := true;
               ReviewPage.newVendorName := " Acme Supply Co. ";
               ReviewPage.isCreatingVendor := false;
               ReviewPage.numPages := Some 2%Z;
               ReviewPage.pageNumber := 1%Z |} in
  exists m,
    m <> EmptyString
    /\ Review.error
         (ReviewPage.form
            (fst (ReviewPage.handleCreateVendor
                    (fun _ => ReviewPage.Failed (Api.ServerResponded None)) pg)))
       = Some m
    /\ In (ReviewPage.ToastError m)
          (snd (ReviewPage.handleCreateVendor
                  (fun _ => ReviewPage.Failed (Api.ServerResponded None)) pg)).
Proof.
  intro pg.
  apply (proj2 (proj2 (proj2 (proj2 (proj2
           (failed_request_shows_message (Api.ServerResponded None)))))) pg).
  vm_compute. discriminate.
Defined.

(** X2.  What the message is.  When the server cannot be reached every
    page shows the one network message, never its own fallback.  When the
    server answers with a list of validation errors whose first message is
    not empty, the messages are shown joined by a comma and a space.  When
    the answer has no body, no detail, an empty detail or an empty list,
    the page's own fallback is shown. *)
Theorem failed_upload_message (e : Api.AxiosError) (file : Upload.File)
        (st : Upload.State) :
  let shown :=
    Upload.error
      (fst (Upload.processFile
              (fun _ => Upload.Rejected (Api.rejection_detail e)) file st)) in
  (forall message, e = Api.NoResponse message ->
     shown = Some "Network error - unable to connect to server")
  /\ (forall first rest,
        first <> EmptyString ->
        e = Api.ServerResponded
              (Some (Api.DetailErrors (Some first :: map Some rest))) ->
        shown = Some (String.concat ", " (first :: rest)))
  /\ (forall text, text <> EmptyString ->
        e = Api.ServerResponded (Some (Api.DetailText text)) ->
        shown = Some text)
  /\ (e = Api.ServerResponded None
      \/ e = Api.ServerResponded (Some Api.NoDetail)
      \/ e = Api.ServerResponded (Some (Api.DetailText EmptyString))
      \/ e = Api.ServerResponded (Some (Api.DetailErrors []))
      \/ e = Api.RequestNotSent EmptyString ->
      shown = Some "Failed to process PDF file").
Proof.
  intro shown. subst shown. unfold Upload.processFile. simpl.
  split; [|split; [|split]].
  - intros message E. subst e. reflexivity.
  - intros first rest F E. subst e. simpl Api.rejection_detail.
    unfold Api.join_messages.
    assert (M : map (fun m : option string =>
                       match m with Some s => s | None => EmptyString end)
                    (Some first :: map Some rest) = first :: rest).
    { simpl. f_equal. induction rest as [|x r IH]; simpl; [reflexivity|].
      rewrite IH. reflexivity. }
    rewrite M. f_equal. apply (detail_or_text _ "Failed to process PDF file").
    destruct rest as [|x r]; simpl; [exact F|].
    destruct first; [contradiction | discriminate].
  - intros text T E. subst e. simpl. f_equal.
    apply (detail_or_text _ "Failed to process PDF file"). exact T.
  - intros [E|[E|[E|[E|E]]]]; subst e; reflexivity.
Qed.

Lemma failed_upload_message_witness :
  let file := {| Upload.name := "march.pdf"; Upload.size := 48213;
                 Upload.type := "application/pdf" |} in
  let st := {| Upload.isDragging := false; Upload.isUploading := false;
               Upload.uploadProgress := 0; Upload.error := None |} in
  let e := Api.ServerResponded
             (Some (Api.DetailErrors
                      [Some "field required"; Some "value is not a valid float"])) in
  Upload.error
    (fst (Upload.processFile
            (fun _ => Upload.Rejected (Api.rejection_detail e)) file st))
  = Some "field required, value is not a valid float".
Proof.
  intros file st e.
  apply (proj1 (proj2 (failed_upload_message e file st))
           "field required" ["value is not a valid float"]).
  - discriminate.
  - reflexivity.
Defined.

(** ** Loading the invoice list *)



(** X4.  The dot and the label of a row always agree: green and Approved
    for exactly the status [approved], red and Rejected for exactly
    [rejected], gray and Draft for every other status, known or not. *)
Theorem status_dot_matches_label (status : string) :
  (status = "approved"
   /\ InvoiceTable.getStatusColor status = "bg-green-500"
   /\ InvoiceTable.getStatusLabel status = "Approved")
  \/ (status = "rejected"
      /\ InvoiceTable.getStatusColor status = "bg-red-500"
      /\ InvoiceTable.getStatusLabel status = "Rejected")
  \/ (status <> "approved" /\ status <> "rejected"
      /\ InvoiceTable.getStatusColor status = "bg-gray-400"
      /\ InvoiceTable.getStatusLabel status = "Draft").
Proof.
  unfold InvoiceTable.getStatusColor, InvoiceTable.getStatusLabel.
  destruct (status =? "approved") eqn:A.
  - left. apply String.eqb_eq in A. repeat split. exact A.
  - destruct (status =? "rejected") eqn:R.
    + right. left. apply String.eqb_eq in R. repeat split. exact R.
    + right. right. apply String.eqb_neq in A. apply String.eqb_neq in R.
      repeat split; assumption.
Qed.

(** ** The upload progress bar *)

Lemma after_succ (n : nat) :
  UploadProgress.after (S n) = UploadProgress.tick (UploadProgress.after n).
Proof. reflexivity. Qed.

Lemma after_spec (n : nat) :
  UploadProgress.uploadProgress (UploadProgress.after n)
  = Z.min (10 * Z.of_nat n) 90
  /\ (UploadProgress.ticking (UploadProgress.after n) = true <-> (n <= 9)%nat).
Proof.
  induction n as [|n [IHp IHt]].
  - split; [reflexivity|]. split; [lia | reflexivity].
  - rewrite after_succ. unfold UploadProgress.tick.
    destruct (UploadProgress.ticking (UploadProgress.after n)) eqn:T.
    + assert (L : (n <= 9)%nat) by (apply IHt; reflexivity).
      rewrite IHp.
      destruct (90 <=? Z.min (10 * Z.of_nat n) 90)%Z eqn:C;
        cbn [UploadProgress.uploadProgress UploadProgress.ticking].
      * apply Z.leb_le in C. split; [lia|].
        split; [discriminate | lia].
      * apply Z.leb_gt in C. split; [lia|].
        split; [lia | reflexivity].
    + assert (L : ~ (n <= 9)%nat) by (intro L; apply IHt in L; discriminate L).
      rewrite IHp, T. split; [lia|]. split; [discriminate | lia].
Qed.

(** A timer that was cleared moves the bar no more. *)
Lemma cleared_timer_rests (p : UploadProgress.Pending) (n : nat) :
  UploadProgress.ticking p = false -> Nat.iter n UploadProgress.tick p = p.
Proof.
  intro T. induction n as [|n IH]; [reflexivity|]. simpl. rewrite IH.
  unfold UploadProgress.tick. rewrite T. reflexivity.
Qed.

(** The bar after a rejection: the timer, if it had not stopped by
    itself, starts over from 0. *)
Lemma rejected_progress (detail : option string) (elapsed later : nat) :
  UploadProgress.uploadProgress
    (UploadProgress.settled (Upload.Rejected detail) elapsed later)
  = if (elapsed <=? 9)%nat then Z.min (10 * Z.of_nat later) 90 else 0%Z.
Proof.
  unfold UploadProgress.settled, UploadProgress.settle.
  destruct (after_spec elapsed) as [_ Ht].
  destruct (elapsed <=? 9)%nat eqn:L.
  - apply Nat.leb_le in L. apply Ht in L. rewrite L.
    exact (proj1 (after_spec later)).
  - apply Nat.leb_gt in L.
    destruct (UploadProgress.ticking (UploadProgress.after elapsed)) eqn:T.
    + exfalso. assert (elapsed <= 9)%nat by (apply Ht; reflexivity). lia.
    + rewrite cleared_timer_rests by reflexivity. reflexivity.
Qed.

(** X5.  While an upload is pending the bar shows [min(10 n, 90)] percent
    after the timer has fired [n] times: it climbs by ten, stops at 90 and
    never passes it, and the timer is cleared by its tenth firing. *)
Theorem progress_climbs_to_ninety (n : nat) :
  UploadProgress.uploadProgress (UploadProgress.after n)
  = Z.min (10 * Z.of_nat n) 90
  /\ (UploadProgress.ticking (UploadProgress.after n) = true <-> (n <= 9)%nat)
  /\ (0 <= UploadProgress.uploadProgress (UploadProgress.after n) <= 90)%Z.
Proof.
  destruct (after_spec n) as [Hp Ht]. split; [exact Hp|]. split; [exact Ht|].
  rewrite Hp. lia.
Qed.

(** ** The pager under the PDF *)

(** X6.  In a document of [n >= 1] pages the page number stays within
    [1, n] under any sequence of presses on Previous and Next, starting
    from any page in that range; a button that is drawn disabled would
    not have moved the page; and Next followed by Previous returns to the
    page it left, except from the last page. *)
Theorem pager_stays_in_range (n p : Z) (presses : list ReviewPage.PagerButton) :
  (1 <= n)%Z -> (1 <= p <= n)%Z ->
  let final := fold_left (fun q b => ReviewPage.turn n b q) presses p in
  (1 <= final <= n)%Z
  /\ (forall b, ReviewPage.disabled n b p = true -> ReviewPage.turn n b p = p)
  /\ ((p < n)%Z ->
      ReviewPage.turn n ReviewPage.Previous (ReviewPage.turn n ReviewPage.Next p) = p).
Proof.
  intros Hn Hp final. split; [|split].
  - subst final. revert p Hp.
    induction presses as [|b rest IH]; intros p Hp; simpl; [exact Hp|].
    apply IH. destruct b; simpl; lia.
  - intros b D. destruct b; simpl in *; apply Z.eqb_eq in D; lia.
  - intro L. simpl. lia.
Qed.

Lemma pager_stays_in_range_witness :
  (1 <= fold_left (fun q b => ReviewPage.turn 3 b q)
          [ReviewPage.Next; ReviewPage.Next; ReviewPage.Next; ReviewPage.Previous]
          1%Z <= 3)%Z.
Proof.
  apply (pager_stays_in_range 3 1
           [ReviewPage.Next; ReviewPage.Next; ReviewPage.Next; ReviewPage.Previous]);
    lia.
Defined.

(** ** The name of the exported file *)

Section ExportName.
Import InvoiceTable.

Lemma take_line_chars (s : string) (c : ascii) :
  In c (list_ascii_of_string (take_line s)) -> is_line_terminator c = false.
Proof.
  induction s as [|d r IH]; simpl; [tauto|].
  destruct (is_line_terminator d) eqn:L; simpl; [tauto|].
  intros [E|H]; [subst d; exact L | exact (IH H)].
Qed.

Lemma remove_quotes_chars (s : string) (c : ascii) :
  In c (list_ascii_of_string (remove_quotes s))
  <-> In c (list_ascii_of_string s) /\ Js.code c <> 34%N.
Proof.
  induction s as [|d r IH]; simpl; [tauto|].
  destruct (Js.code d =? 34)%N eqn:Q; simpl; rewrite IH.
  - apply N.eqb_eq in Q. split; [tauto|].
    intros [[E|H] N]; [subst d; contradiction | tauto].
  - apply N.eqb_neq in Q. split.
    + intros [E|[H N]]; [subst d; tauto | tauto].
    + tauto.
Qed.

Lemma filenameMatch_cons (d : ascii) (r : string) :
  filenameMatch (String d r)
  = match strip_prefix "filename=" (String d r) with
    | Some rest =>
        match take_line rest with
        | EmptyString => filenameMatch r
        | captured => Some captured
        end
    | None => filenameMatch r
    end.
Proof. reflexivity. Qed.

Lemma filenameMatch_is_line (s captured : string) :
  filenameMatch s = Some captured ->
  exists rest, captured = take_line rest /\ captured <> EmptyString.
Proof.
  induction s as [|d r IH]; [discriminate|]. rewrite filenameMatch_cons.
  destruct (strip_prefix "filename=" (String d r)) as [rest|]; [|exact IH].
  destruct (take_line rest) as [|x l] eqn:T; [exact IH|].
  intro H. injection H as H. subst captured.
  exists rest. split; [symmetry; exact T | discriminate].
Qed.

Lemma filenameMatch_skip (pre s : string) :
  (forall c, In c (list_ascii_of_string pre) -> c <> "f"%char) ->
  filenameMatch (pre ++ s) = filenameMatch s.
Proof.
  induction pre as [|d p IH]; intro H; [reflexivity|].
  change (String d p ++ s) with (String d (p ++ s)).
  assert (D : d <> "f"%char) by (apply H; left; reflexivity).
  assert (E : strip_prefix "filename=" (String d (p ++ s)) = None).
  { change (strip_prefix "filename=" (String d (p ++ s)))
      with (if Ascii.eqb "f" d then strip_prefix "ilename=" (p ++ s) else None).
    destruct (Ascii.eqb "f" d) eqn:A; [|reflexivity].
    apply Ascii.eqb_eq in A. symmetry in A. contradiction. }
  rewrite filenameMatch_cons, E.
  apply IH. intros c Hc. apply H. right. exact Hc.
Qed.

Lemma filenameMatch_without_f (s : string) :
  (forall c, In c (list_ascii_of_string s) -> c <> "f"%char) ->
  filenameMatch s = None.
Proof.
  induction s as [|d r IH]; intro H; [reflexivity|].
  assert (D : d <> "f"%char) by (apply H; left; reflexivity).
  assert (E : strip_prefix "filename=" (String d r) = None).
  { change (strip_prefix "filename=" (String d r))
      with (if Ascii.eqb "f" d then strip_prefix "ilename=" r else None).
    destruct (Ascii.eqb "f" d) eqn:A; [|reflexivity].
    apply Ascii.eqb_eq in A. symmetry in A. contradiction. }
  rewrite filenameMatch_cons, E.
  apply IH. intros c Hc. apply H. right. exact Hc.
Qed.

Lemma filenameMatch_found (s rest : string) :
  strip_prefix "filename=" s = Some rest ->
  take_line rest <> EmptyString ->
  filenameMatch s = Some (take_line rest).
Proof.
  intros P T. destruct s as [|d r]; [discriminate P|].
  rewrite filenameMatch_cons, P.
  destruct (take_line rest); [contradiction | reflexivity].
Qed.

Lemma filenameMatch_here (c : ascii) (rest : string) :
  is_line_terminator c = false ->
  filenameMatch ("filename=" ++ String c rest) = Some (take_line (String c rest)).
Proof.
  intro L. apply filenameMatch_found; [reflexivity|].
  simpl. rewrite L. discriminate.
Qed.

End ExportName.

(** X7.  A successful export downloads exactly one file and a failed one
    none.  The file's name never contains a double quote or a line break.
    When the Content-Disposition header reads [filename=] after a prefix
    without the letter f, as in [attachment; filename=...], the name is
    the rest of that line with the double quotes removed; when the header
    is missing, empty or has no letter f at all, the name is
    [billie-export.csv]. *)
Theorem exported_file_name (st : InvoiceList.State) (data : string)
        (header : option string) (e : Api.AxiosError) :
  let downloads effects :=
    flat_map (fun x => match x with
                       | InvoiceTable.Download f _ => [f]
                       | _ => []
                       end) effects in
  downloads (snd (InvoiceTable.handleExport (InvoiceTable.Exported data header) st))
    = [InvoiceTable.download_filename header]
  /\ downloads (snd (InvoiceTable.handleExport (InvoiceTable.ExportFailed e) st)) = []
  /\ (forall c,
        In c (list_ascii_of_string (InvoiceTable.download_filename header)) ->
        Terms.clean c)
  /\ (forall pre c name,
        (forall d, In d (list_ascii_of_string pre) -> d <> "f"%char) ->
        InvoiceTable.is_line_terminator c = false ->
        header = Some (pre ++ "filename=" ++ String c name) ->
        InvoiceTable.download_filename header
        = InvoiceTable.remove_quotes (InvoiceTable.take_line (String c name)))
  /\ (header = None \/ header = Some EmptyString
      \/ (exists h, header = Some h
                    /\ forall d, In d (list_ascii_of_string h) -> d <> "f"%char) ->
      InvoiceTable.download_filename header = "billie-export.csv").
Proof.
  intro downloads. split; [reflexivity|]. split; [reflexivity|].
  split; [|split].
  - intros c. unfold InvoiceTable.download_filename.
    assert (D : In c (list_ascii_of_string "billie-export.csv") -> Terms.clean c).
    { simpl. intros H.
      repeat (destruct H as [H|H]; [subst c; split; [discriminate | reflexivity]|]).
      contradiction. }
    destruct header as [h|]; [|exact D].
    destruct (h =? EmptyString); [exact D|].
    destruct (InvoiceTable.filenameMatch h) as [captured|] eqn:M; [|exact D].
    destruct (filenameMatch_is_line _ _ M) as [rest [E _]]. subst captured.
    intro H. apply remove_quotes_chars in H. destruct H as [H N].
    split; [exact N | exact (take_line_chars _ _ H)].
  - intros pre c name P L E. subst header. unfold InvoiceTable.download_filename.
    destruct (pre ++ "filename=" ++ String c name =? EmptyString) eqn:Z.
    { apply String.eqb_eq in Z. destruct pre; discriminate Z. }
    rewrite (filenameMatch_skip pre _ P), (filenameMatch_here c name L).
    reflexivity.
  - intros [E|[E|[h [E P]]]]; subst header; try reflexivity.
    unfold InvoiceTable.download_filename.
    destruct (h =? EmptyString); [reflexivity|].
    rewrite (filenameMatch_without_f h P). reflexivity.
Qed.

Lemma exported_file_name_witness :
  let q := String (ascii_of_nat 34) EmptyString in
  InvoiceTable.download_filename
    (Some ("attachment; " ++ "filename=" ++ q ++ "billie-2024-03.csv" ++ q))
  = "billie-2024-03.csv".
Proof.
  intro q.
  pose proof (exported_file_name
                {| InvoiceList.invoices := []; InvoiceList.filter := "all";
                   InvoiceList.isLoading := false; InvoiceList.isExporting := true;
                   InvoiceList.isDeleting := None; InvoiceList.error := None |}
                "vendor,total"
                (Some ("attachment; " ++ "filename=" ++ q ++ "billie-2024-03.csv" ++ q))
                (Api.NoResponse "timeout")) as H.
  cbv zeta in H. destruct H as [_ [_ [_ [H _]]]].
  rewrite (H "attachment; " (ascii_of_nat 34) ("billie-2024-03.csv" ++ q)).
  - reflexivity.
  - intros d Hd. simpl in Hd.
    repeat (destruct Hd as [Hd|Hd]; [subst d; discriminate|]). contradiction.
  - reflexivity.
  - reflexivity.
Defined.

(** ** Editing the form *)

Ltac key_cases :=
  repeat match goal with
         | |- context [(?a =? ?b)%string] =>
             let E := fresh "E" in
             destruct (a =? b)%string eqn:E;
             [apply String.eqb_eq in E | apply String.eqb_neq in E];
             try subst; try congruence
         end.

(** X8.  Typing into an input changes the form key named by the input to
    the text typed and leaves every other key as it was, along with the
    saving flag, the error and the rest of the page; an input whose name
    is no key of the form changes nothing that is read. *)
Theorem input_change_sets_one_key (name value other : string)
        (pg : ReviewPage.Page) :
  let fd := Review.formData (ReviewPage.form pg) in
  let pg' := ReviewPage.handleInputChange name value pg in
  let fd' := Review.formData (ReviewPage.form pg') in
  (ReviewPage.get_key name fd <> None ->
   ReviewPage.get_key name fd' = Some (Js.Str value))
  /\ (other <> name -> ReviewPage.get_key other fd' = ReviewPage.get_key other fd)
  /\ (ReviewPage.get_key name fd = None -> pg' = pg)
  /\ Review.isSaving (ReviewPage.form pg') = Review.isSaving (ReviewPage.form pg)
  /\ Review.error (ReviewPage.form pg') = Review.error (ReviewPage.form pg)
  /\ ReviewPage.vendors pg' = ReviewPage.vendors pg
  /\ ReviewPage.showNewVendorModal pg' = ReviewPage.showNewVendorModal pg.
Proof.
  intros fd pg' fd'. subst fd' pg'.
  unfold ReviewPage.handleInputChange, ReviewPage.with_form,
    ReviewPage.with_formData. simpl. fold fd.
  split; [|split; [|split; [|repeat split]]].
  - unfold ReviewPage.get_key, ReviewPage.set_key. simpl. intro H.
    key_cases.
  - intro N. unfold ReviewPage.get_key, ReviewPage.set_key. simpl.
    key_cases.
  - unfold ReviewPage.get_key. intro H.
    assert (S : ReviewPage.set_key name value fd = fd).
    { unfold ReviewPage.set_key. revert H. key_cases. intros _.
      destruct fd; reflexivity. }
    rewrite S. subst fd. destruct pg as [[f i e] v m n c np p]. reflexivity.
Qed.

Lemma input_change_sets_one_key_witness :
  let pg := {| ReviewPage.form := Terms.opened "f-01" None;
               ReviewPage.vendors := [];
               ReviewPage.showNewVendorModal := false;
               ReviewPage.newVendorName := EmptyString;
               ReviewPage.isCreatingVendor := false;
               ReviewPage.numPages := None;
               ReviewPage.pageNumber := 1%Z |} in
  ReviewPage.get_key "total"
    (Review.formData
       (ReviewPage.form (ReviewPage.handleInputChange "total" "88.00" pg)))
  = Some (Js.Str "88.00").
Proof.
  intro pg.
  apply (proj1 (input_change_sets_one_key "total" "88.00" "vendor" pg)).
  discriminate.
Defined.

(** ** Opening the page *)

Lemma handleSave_blocked (status : string)
      (respond : Review.InvoiceData -> Review.Response) (st : Review.State) :
  Review.validationErrors (Review.formData st) <> [] ->
  Review.requests (snd (Review.handleSave status respond st)) = []
  /\ Review.error (fst (Review.handleSave status respond st)) <> None.
Proof.
  intro V. unfold Review.handleSave.
  destruct (Review.validationErrors (Review.formData st)); [contradiction|].
  simpl. split; [reflexivity | discriminate].
Qed.

Lemma or_empty_of_falsy (v : Js.value) :
  Js.truthy v = false -> Js.or_else v (Js.Str EmptyString) = Js.Str EmptyString.
Proof. intro H. unfold Js.or_else. rewrite H. reflexivity. Qed.

(** X9.  When the page opens without an extraction result (as from the
    invoice list), or on a result whose vendor or total is null, empty, 0
    or NaN, pressing Save & Approve or Reject before editing sends no
    request and leaves an error; and no field of the form just opened is
    ever null. *)
Theorem unedited_form_is_not_sent (fileId : string)
        (extractionResult : option Review.ExtractionResult)
        (b : Review.Button) (respond : Review.InvoiceData -> Review.Response) :
  let st := Terms.opened fileId extractionResult in
  (forall key, ReviewPage.get_key key (Review.formData st) <> Some Js.Null)
  /\ (extractionResult = None
      \/ (exists r, extractionResult = Some r
                    /\ (Js.truthy (Review.er_vendor r) = false
                        \/ Js.truthy (Review.er_total r) = false)) ->
      Review.requests (snd (Review.onClick b respond st)) = []
      /\ Review.error (fst (Review.onClick b respond st)) <> None).
Proof.
  intro st. split.
  - intro key. unfold ReviewPage.get_key.
    assert (G : forall f, Review.field_or extractionResult f Js.Null
                            (fun v => Js.or_else v (Js.Str EmptyString))
                          <> Js.Null).
    { intro f. unfold Review.field_or, Js.or_else.
      destruct extractionResult as [r|]; simpl; [|discriminate].
      destruct (Js.truthy (f r)) eqn:T; [|discriminate].
      intro N. rewrite N in T. discriminate T. }
    subst st. simpl.
    repeat match goal with
           | |- context [(?a =? ?b)%string] => destruct (a =? b)%string
           end;
      try discriminate; intro H; injection H as H; exact (G _ H).
  - intro H.
    assert (R : Review.onClick b respond st
                = Review.handleSave
                    (match b with
                     | Review.SaveAndApprove => "approved"
                     | Review.Reject => "rejected"
                     end) respond st) by (destruct b; reflexivity).
    rewrite R. apply handleSave_blocked.
    subst st. unfold Review.validationErrors, Terms.opened, Review.initial_formData.
    simpl. unfold Review.field_or.
    destruct H as [E|[r [E [T|T]]]]; subst extractionResult.
    + simpl. discriminate.
    + rewrite (or_empty_of_falsy _ T). simpl. discriminate.
    + rewrite (or_empty_of_falsy _ T).
      intro A. apply app_eq_nil in A. destruct A as [_ A]. discriminate A.
Qed.

Lemma unedited_form_is_not_sent_witness :
  Review.requests
    (snd (Review.onClick Review.SaveAndApprove (fun _ => Review.Resolved)
            (Terms.opened "f-01" None))) = [].
Proof.
  apply (proj2 (unedited_form_is_not_sent "f-01" None Review.SaveAndApprove
                  (fun _ => Review.Resolved))).
  left. reflexivity.
Defined.

(** X10.  A confidence that is missing, NaN, zero or negative reads "Not
    detected" without highlight, on every field; in particular every
    field reads so when the page opens without an extraction result. *)
Theorem missing_confidence_not_detected (f : Review.Field)
        (r : Review.ExtractionResult) :
  (Review.ConfidenceBadge (Review.score (Review.confidence None) f)
   = Review.NotDetected
   /\ Review.LowConfidenceHighlight (Review.score (Review.confidence None) f)
      = false)
  /\ (Review.reported r f = Js.NaN
      \/ Review.reported r f = Js.NegInf
      \/ (exists c, Review.reported r f = Js.Fin c /\ c <= 0) ->
      Review.ConfidenceBadge (Review.score (Review.confidence (Some r)) f)
      = Review.NotDetected
      /\ Review.LowConfidenceHighlight
           (Review.score (Review.confidence (Some r)) f) = false).
Proof.
  split; [destruct f; split; reflexivity|].
  rewrite score_of_reported.
  intros [E|[E|[c [E L]]]]; rewrite E; try (split; reflexivity).
  destruct (number_or_zero c) as [c' [N Hc]]. rewrite N.
  assert (L' : c' <= 0) by (rewrite Hc; exact L).
  split.
  - unfold Review.ConfidenceBadge, Js.ge, Js.gt.
    assert (A : Js.le (Js.Fin (8 # 10)) (Js.Fin c') = false).
    { apply le_Fin_false. eapply Qle_lt_trans; [exact L' | reflexivity]. }
    assert (B : Js.lt (Js.Fin 0) (Js.Fin c') = false)
      by (apply lt_Fin_false; exact L').
    rewrite A, B. reflexivity.
  - apply not_true_iff_false. rewrite highlight_of_score.
    intros [P _]. exact (Qlt_not_le _ _ P L').
Qed.

Lemma missing_confidence_not_detected_witness :
  let r := {| Review.er_filename := Js.Str "march.pdf";
              Review.er_vendor := Js.Str "Acme Supply Co.";
              Review.er_vendor_confidence := Js.Fin (- (1 # 4));
              Review.er_date := Js.Null;
              Review.er_date_confidence := Js.NaN;
              Review.er_total := Js.Num (Js.Fin 88);
              Review.er_total_confidence := Js.Fin (9 # 10);
              Review.er_invoice_number := Js.Null;
              Review.er_invoice_number_confidence := Js.Fin 0 |} in
  Review.ConfidenceBadge
    (Review.score (Review.confidence (Some r)) Review.VendorField)
  = Review.NotDetected.
Proof.
  intro r.
  apply (proj2 (missing_confidence_not_detected Review.VendorField r)).
  right. right. exists (- (1 # 4)). split; [reflexivity | discriminate].
Defined.

(** ** Searching the vendor list *)

Section Search.
Import Js VendorSelect.

Lemma prefix_iff (t s : string) :
  prefix t s = true <-> exists behind, s = t ++ behind.
Proof.
  revert s. induction t as [|a t IH]; intro s.
  - split; [intros _; exists s; reflexivity | intros _; destruct s; reflexivity].
  - destruct s as [|b s]; simpl;
      [split; [discriminate | intros [x H]; discriminate H]|].
    destruct (ascii_dec a b) as [E|N].
    + subst b. rewrite IH. split.
      * intros [x H]. exists x. rewrite H. reflexivity.
      * intros [x H]. injection H as H. exists x. exact H.
    + split; [discriminate|]. intros [x H]. injection H as H _.
      symmetry in H. contradiction.
Qed.

Lemma includes_iff (s t : string) :
  includes s t = true <-> exists before behind, s = before ++ t ++ behind.
Proof.
  induction s as [|c r IH].
  - change (includes EmptyString t) with (prefix t EmptyString || false).
    rewrite orb_false_r, prefix_iff. split.
    + intros [x H]. exists EmptyString, x. exact H.
    + intros [[|d p] [x H]]; [exists x; exact H | discriminate H].
  - change (includes (String c r) t)
      with (prefix t (String c r) || includes r t).
    rewrite orb_true_iff, prefix_iff, IH. split.
    + intros [[x H]|[p [x H]]].
      * exists EmptyString, x. exact H.
      * exists (String c p), x. simpl. rewrite H. reflexivity.
    + intros [[|d p] [x H]].
      * left. exists x. exact H.
      * right. injection H as _ H. exists p, x. exact H.
Qed.

Lemma includes_ignoring_case (name term : string) :
  includes (toLowerCase name) (toLowerCase term) = true
  <-> Terms.contains_ignoring_case name term.
Proof.
  rewrite includes_iff. unfold Terms.contains_ignoring_case. split.
  - intros [p [x H]].
    destruct (toLowerCase_split _ _ _ H) as [before [rest [E [_ R]]]].
    destruct (toLowerCase_split _ _ _ R) as [stretch [behind [E' [S _]]]].
    exists before, stretch, behind. subst rest. split; assumption.
  - intros [before [stretch [behind [E S]]]].
    exists (toLowerCase before), (toLowerCase behind).
    rewrite E, !toLowerCase_append, S. reflexivity.
Qed.

Lemma includes_self (s : string) : includes s s = true.
Proof.
  apply includes_iff. exists EmptyString, EmptyString.
  simpl. induction s as [|c r IH]; simpl; [reflexivity|].
  rewrite <- IH. reflexivity.
Qed.

Lemma filter_subsequence {A} (f : A -> bool) (l : list A) :
  Wording.subsequence (List.filter f l) l.
Proof.
  induction l as [|a l IH]; simpl; [constructor|].
  destruct (f a); constructor; exact IH.
Qed.

End Search.

(** X11.  The vendors listed under the box are exactly those whose name
    contains the text typed when letter case is ignored, in the order of
    the vendor list; with nothing typed every vendor is listed. *)
Theorem vendor_search_ignores_case (vendors : list VendorSelect.Vendor)
        (searchTerm : string) :
  (forall v,
     In v (VendorSelect.filteredVendors vendors searchTerm)
     <-> In v vendors
         /\ Terms.contains_ignoring_case (VendorSelect.name v) searchTerm)
  /\ Wording.subsequence (VendorSelect.filteredVendors vendors searchTerm) vendors
  /\ VendorSelect.filteredVendors vendors EmptyString = vendors.
Proof.
  split; [|split].
  - intro v. unfold VendorSelect.filteredVendors.
    rewrite filter_In, includes_ignoring_case. reflexivity.
  - apply filter_subsequence.
  - unfold VendorSelect.filteredVendors.
    induction vendors as [|v l IH]; simpl; [reflexivity|].
    assert (E : VendorSelect.includes (Js.toLowerCase (VendorSelect.name v))
                                      EmptyString = true)
      by (destruct (Js.toLowerCase (VendorSelect.name v)); reflexivity).
    simpl in E. rewrite E. f_equal. exact IH.
Qed.

(** ** Creating a vendor *)

(** X12.  A vendor name that is blank after trimming sends nothing and
    changes nothing.  Otherwise one request goes out, with the name as
    typed, untrimmed.  When it succeeds the vendor the server returned is
    appended to the list, is found by a search for its own name, becomes
    the form's vendor, and the modal closes with its input cleared; when
    it fails the list and the form are as before and the modal stays open
    with the name typed. *)
Theorem create_vendor_outcomes (respond : string -> ReviewPage.Response)
        (pg : ReviewPage.Page) :
  let typed := ReviewPage.newVendorName pg in
  let result := ReviewPage.handleCreateVendor respond pg in
  let pg' := fst result in
  (Js.trim typed = EmptyString -> result = (pg, []))
  /\ (Js.trim typed <> EmptyString ->
      (exists shown, snd result = [ReviewPage.CreateVendor typed; shown])
      /\ (forall v, respond typed = ReviewPage.Created v ->
            ReviewPage.vendors pg' = (ReviewPage.vendors pg ++ [v])%list
            /\ In v (VendorSelect.filteredVendors (ReviewPage.vendors pg')
                                                  (VendorSelect.name v))
            /\ Review.vendor (Review.formData (ReviewPage.form pg'))
               = Js.Str (VendorSelect.name v)
            /\ ReviewPage.showNewVendorModal pg' = false
            /\ ReviewPage.newVendorName pg' = EmptyString)
      /\ (forall e, respond typed = ReviewPage.Failed e ->
            ReviewPage.vendors pg' = ReviewPage.vendors pg
            /\ Review.formData (ReviewPage.form pg')
               = Review.formData (ReviewPage.form pg)
            /\ ReviewPage.showNewVendorModal pg' = ReviewPage.showNewVendorModal pg
            /\ ReviewPage.newVendorName pg' = typed)).
Proof.
  intros typed result pg'. subst pg' result.
  unfold ReviewPage.handleCreateVendor. fold typed. split.
  - intro T. rewrite T. reflexivity.
  - intro T. apply String.eqb_neq in T. rewrite T.
    split; [|split].
    + destruct (respond typed); simpl; eexists; reflexivity.
    + intros v R. rewrite R. simpl.
      split; [reflexivity|]. split; [|repeat split].
      unfold VendorSelect.filteredVendors. apply filter_In. split.
      * apply in_or_app. right. left. reflexivity.
      * apply includes_ignoring_case.
        exists EmptyString, (VendorSelect.name v), EmptyString.
        split; [|reflexivity].
        simpl. induction (VendorSelect.name v) as [|c r IH]; simpl;
          [reflexivity | rewrite <- IH; reflexivity].
    + intros e R. rewrite R. simpl. repeat split.
Qed.

Lemma create_vendor_outcomes_witness :
  let pg := {| ReviewPage.form := Terms.opened "f-01" None;
               ReviewPage.vendors := [{| VendorSelect.id := 1;
                                         VendorSelect.name := "Globex" |}];
               ReviewPage.showNewVendorModal := true;
               ReviewPage.newVendorName := " Acme Supply Co. ";
               ReviewPage.isCreatingVendor := false;
               ReviewPage.numPages := None;
               ReviewPage.pageNumber := 1%Z |} in
  let v := {| VendorSelect.id := 2; VendorSelect.name := "Acme Supply Co." |} in
  Review.vendor
    (Review.formData
       (ReviewPage.form
          (fst (ReviewPage.handleCreateVendor (fun _ => ReviewPage.Created v) pg))))
  = Js.Str "Acme Supply Co.".
Proof.
  intros pg v.
  assert (T : Js.trim (ReviewPage.newVendorName pg) <> EmptyString)
    by (vm_compute; discriminate).
  destruct (proj2 (create_vendor_outcomes (fun _ => ReviewPage.Created v) pg) T)
    as [_ [S _]].
  exact (proj1 (proj2 (proj2 (S v eq_refl)))).
Defined.

(** ** The vendor box and the form *)

Section VendorBox.
Import ReviewPage.

Lemma vendor_events_snoc (es : list VendorSelect.Event) (e : VendorSelect.Event)
      (s : VendorSelect.State * Page) :
  vendor_events (es ++ [e]) s = vendor_event e (vendor_events es s).
Proof. unfold vendor_events. rewrite fold_left_app. reflexivity. Qed.

Lemma vendor_event_frame (e : VendorSelect.Event)
      (s : VendorSelect.State * Page) :
  Terms.same_but_vendor (Review.formData (form (snd (vendor_event e s))))
                  (Review.formData (form (snd s)))
  /\ ((forall n, e <> VendorSelect.Select n) ->
      Review.formData (form (snd (vendor_event e s)))
      = Review.formData (form (snd s))).
Proof.
  destruct s as [st pg]. unfold Terms.same_but_vendor.
  destruct e as [text| | | |n|]; simpl;
    try (split; [repeat split | intros _; reflexivity]).
  unfold handleVendorChange.
  destruct (n =? "__new__"); simpl;
    (split; [repeat split | intro H; exfalso; exact (H n eq_refl)]).
Qed.

End VendorBox.

(** X13.  Whatever is done to the vendor box, only picking a vendor from
    its list changes the form, and it changes the vendor alone: typing,
    focusing, leaving, toggling and "Create New Vendor" leave the form
    data as it was, so text typed into the box is never the vendor that
    is saved.  Picking a vendor makes it the form's vendor, closes the
    list and clears the text typed. *)
Theorem only_picking_sets_vendor (events : list VendorSelect.Event)
        (s : VendorSelect.State * ReviewPage.Page) (picked : string) :
  let form_of x := Review.formData (ReviewPage.form (snd x)) in
  Terms.same_but_vendor (form_of (ReviewPage.vendor_events events s)) (form_of s)
  /\ (Terms.nothing_selected events ->
      form_of (ReviewPage.vendor_events events s) = form_of s)
  /\ (picked <> "__new__" ->
      let s' := ReviewPage.vendor_events (events ++ [VendorSelect.Select picked]) s in
      Review.vendor (form_of s') = Js.Str picked
      /\ VendorSelect.isOpen (fst s') = false
      /\ VendorSelect.searchTerm (fst s') = EmptyString).
Proof.
  intro form_of. split; [|split].
  - induction events as [|e es IH] using rev_ind.
    + unfold Terms.same_but_vendor. repeat split.
    + rewrite vendor_events_snoc.
      destruct (vendor_event_frame e (ReviewPage.vendor_events es s)) as [F _].
      unfold Terms.same_but_vendor in *. subst form_of. simpl in *.
      destruct F as [F1 [F2 [F3 [F4 [F5 F6]]]]].
      destruct IH as [I1 [I2 [I3 [I4 [I5 I6]]]]].
      repeat split; congruence.
  - induction events as [|e es IH] using rev_ind; intro N; [reflexivity|].
    rewrite vendor_events_snoc.
    destruct (vendor_event_frame e (ReviewPage.vendor_events es s)) as [_ F].
    subst form_of. simpl in *. rewrite F.
    + apply IH. intros n Hn. apply (N n). apply in_or_app. left. exact Hn.
    + intros n E. apply (N n). apply in_or_app. right. left. exact E.
  - intros P s'. subst s'. rewrite vendor_events_snoc.
    destruct (ReviewPage.vendor_events events s) as [st pg].
    subst form_of. simpl. unfold ReviewPage.handleVendorChange.
    apply String.eqb_neq in P. rewrite P. repeat split.
Qed.

Lemma only_picking_sets_vendor_witness :
  let pg := {| ReviewPage.form := Terms.opened "f-01" None;
               ReviewPage.vendors := [{| VendorSelect.id := 1;
                                         VendorSelect.name := "Globex" |}];
               ReviewPage.showNewVendorModal := false;
               ReviewPage.newVendorName := EmptyString;
               ReviewPage.isCreatingVendor := false;
               ReviewPage.numPages := None;
               ReviewPage.pageNumber := 1%Z |} in
  let s := ({| VendorSelect.searchTerm := EmptyString;
               VendorSelect.isOpen := false |}, pg) in
  Review.formData
    (ReviewPage.form
       (snd (ReviewPage.vendor_events
               [VendorSelect.Focus; VendorSelect.Typed "Acme"; VendorSelect.Blur] s)))
  = Review.formData (ReviewPage.form pg).
Proof.
  intros pg s.
  apply (proj1 (proj2 (only_picking_sets_vendor
           [VendorSelect.Focus; VendorSelect.Typed "Acme"; VendorSelect.Blur]
           s "Globex"))).
  intros n [H|[H|[H|[]]]]; discriminate H.
Defined.

(** ** What saving leaves behind *)

(** X14.  Saving never changes the form data.  The page leaves for the
    invoice list exactly when the form was valid and the server accepted
    the invoice; then the buttons stay disabled and there is no error.
    In every other case the buttons are enabled again, an error is set
    and the page stays. *)
Theorem save_leaves_only_on_success (status : string)
        (respond : Review.InvoiceData -> Review.Response) (st : Review.State) :
  let r := Review.handleSave status respond st in
  let accepted :=
    Review.validationErrors (Review.formData st) = []
    /\ respond (Review.build_invoiceData (Review.formData st) status)
       = Review.Resolved in
  Review.formData (fst r) = Review.formData st
  /\ (In (Review.Navigate "/invoices") (snd r) <-> accepted)
  /\ (Review.isSaving (fst r) = true <-> accepted)
  /\ (Review.error (fst r) = None <-> accepted).
Proof.
  intros r accepted. subst r accepted. unfold Review.handleSave.
  destruct (Review.validationErrors (Review.formData st)) as [|x l] eqn:V.
  - destruct (respond (Review.build_invoiceData (Review.formData st) status))
      as [|d] eqn:R; simpl.
    + split; [reflexivity|]. split; [|split]; split; auto.
    + split; [reflexivity|]. split; [|split]; split;
        try (intros [_ X]; discriminate X); try discriminate.
      intros [X|[X|[]]]; discriminate X.
  - simpl. split; [reflexivity|]. split; [|split]; split;
      try (intros [X _]; discriminate X); try discriminate.
    intros [X|[]]. discriminate X.
Qed.

(** ** Deleting more than once *)

Section DeleteTwice.
Import InvoiceList.

Lemma delete_invoices (k : Z) (st : State) :
  invoices (Terms.delete k st) = Wording.without k (invoices st).
Proof. unfold Terms.delete, handleDelete. simpl. apply filter_is_without. Qed.

Lemma without_commute (j k : Z) (l : list Invoice) :
  Wording.without j (Wording.without k l) = Wording.without k (Wording.without j l).
Proof.
  induction l as [|inv rest IH]; simpl; [reflexivity|].
  destruct (id inv =? k)%Z eqn:K; destruct (id inv =? j)%Z eqn:J; simpl;
    rewrite ?K, ?J, IH; reflexivity.
Qed.

Lemma without_absent (k : Z) (l : list Invoice) :
  (forall inv, In inv l -> id inv <> k) -> Wording.without k l = l.
Proof.
  induction l as [|inv rest IH]; intro H; simpl; [reflexivity|].
  destruct (id inv =? k)%Z eqn:K.
  - apply Z.eqb_eq in K. exfalso. exact (H inv (or_introl eq_refl) K).
  - rewrite IH; [reflexivity|]. intros x Hx. apply H. right. exact Hx.
Qed.

Lemma without_length_unique (k : Z) (l : list Invoice) :
  NoDup (map id l) -> In k (map id l) ->
  S (List.length (Wording.without k l)) = List.length l.
Proof.
  induction l as [|inv rest IH]; intros N H; [contradiction|].
  simpl in *. inversion N as [|x xs Hx Hn]; subst.
  destruct (id inv =? k)%Z eqn:K.
  - apply Z.eqb_eq in K. rewrite without_absent; [reflexivity|].
    intros y Hy E. apply Hx. rewrite K, <- E. apply in_map. exact Hy.
  - apply Z.eqb_neq in K. destruct H as [H|H]; [contradiction|].
    simpl. rewrite IH by assumption. reflexivity.
Qed.

End DeleteTwice.

(** X15.  Successful deletes compose: deleting two invoices in either
    order shows the same list, deleting an id a second time changes
    nothing more, and deleting an id that no row has leaves the list as
    it is.  When ids are unique and a row has the id, exactly one row
    goes. *)
Theorem deletes_compose (j k : Z) (st : InvoiceList.State) :
  InvoiceList.filteredInvoices (Terms.delete j (Terms.delete k st))
  = InvoiceList.filteredInvoices (Terms.delete k (Terms.delete j st))
  /\ InvoiceList.filteredInvoices (Terms.delete k (Terms.delete k st))
     = InvoiceList.filteredInvoices (Terms.delete k st)
  /\ ((forall inv, In inv (InvoiceList.invoices st) -> InvoiceList.id inv <> k) ->
      InvoiceList.filteredInvoices (Terms.delete k st) = InvoiceList.filteredInvoices st)
  /\ (NoDup (map InvoiceList.id (InvoiceList.invoices st)) ->
      In k (map InvoiceList.id (InvoiceList.invoices st)) ->
      S (List.length (InvoiceList.filteredInvoices (Terms.delete k st)))
      = List.length (InvoiceList.filteredInvoices st)).
Proof.
  unfold InvoiceList.filteredInvoices. rewrite !delete_invoices.
  split; [apply without_commute|]. split; [|split].
  - apply without_absent. intros inv H. apply without_In in H. tauto.
  - apply without_absent.
  - apply without_length_unique.
Qed.

Lemma deletes_compose_witness :
  let row n := {| InvoiceList.id := n; InvoiceList.file_id := "f";
                  InvoiceList.vendor := "Acme Supply Co.";
                  InvoiceList.invoice_number := None; InvoiceList.date := None;
                  InvoiceList.total := 88; InvoiceList.status := "draft" |} in
  let st := {| InvoiceList.invoices := [row 1%Z; row 2%Z; row 3%Z];
               InvoiceList.filter := "all"; InvoiceList.isLoading := false;
               InvoiceList.isExporting := false; InvoiceList.isDeleting := None;
               InvoiceList.error := None |} in
  S (List.length (InvoiceList.filteredInvoices (Terms.delete 2 st)))
  = List.length (InvoiceList.filteredInvoices st).
Proof.
  intros row st.
  apply (proj2 (proj2 (proj2 (deletes_compose 2 2 st)))).
  - simpl. repeat constructor; simpl; intuition discriminate.
  - simpl. right. left. reflexivity.
Defined.

(** ** What an upload leaves behind *)

(** X16.  After a drop or a selection whose first file is [file], the
    page has no error exactly when the name ends in .pdf and the server
    accepted the upload; it then shows 100 percent, which no later firing
    of the timer changes, and goes to the review page of the file id the
    server returned.  When the upload is rejected the handler sets the bar
    to 0 and the uploading flag to false, so that the drop zone is usable
    again, but it does not clear the timer: if the request failed before
    the timer's tenth firing, the timer goes on and takes the bar from 0
    back up to 90 by tens, where it stops; if the timer had stopped by
    itself, the bar stays at 0.  A file of the wrong kind leaves the bar
    and the uploading flag untouched. *)
Theorem upload_outcomes (dropped : bool) (file : Upload.File)
        (others : list Upload.File) (respond : Upload.File -> Upload.Response)
        (st : Upload.State) :
  let handler := if dropped then Upload.handleDrop else Upload.handleFileSelect in
  let r := handler (file :: others) respond st in
  (Upload.error (fst r) = None
   <-> Upload.is_pdf_name file = true
       /\ exists fid, respond file = Upload.Resolved fid)
  /\ (forall fid,
        Upload.is_pdf_name file = true -> respond file = Upload.Resolved fid ->
        Upload.uploadProgress (fst r) = 100%Z
        /\ Upload.isUploading (fst r) = true
        /\ In (Upload.Navigate ("/review/" ++ fid)) (snd r)
        /\ forall elapsed later,
             UploadProgress.settled (respond file) elapsed later
             = {| UploadProgress.uploadProgress := 100;
                  UploadProgress.ticking := false |})
  /\ (forall detail,
        Upload.is_pdf_name file = true -> respond file = Upload.Rejected detail ->
        Upload.isUploading (fst r) = false
        /\ (forall elapsed,
              Upload.uploadProgress (fst r)
              = UploadProgress.uploadProgress
                  (UploadProgress.settled (respond file) elapsed 0)
              /\ Upload.uploadProgress (fst r) = 0%Z)
        /\ forall elapsed later,
             UploadProgress.uploadProgress
               (UploadProgress.settled (respond file) elapsed later)
             = if (elapsed <=? 9)%nat
               then Z.min (10 * Z.of_nat later) 90
               else 0%Z)
  /\ (Upload.is_pdf_name file = false ->
      Upload.uploadProgress (fst r) = Upload.uploadProgress st
      /\ Upload.isUploading (fst r) = Upload.isUploading st).
Proof.
  intros handler r.
  set (st0 := if dropped
              then {| Upload.isDragging := false;
                      Upload.isUploading := Upload.isUploading st;
                      Upload.uploadProgress := Upload.uploadProgress st;
                      Upload.error := Upload.error st |}
              else st).
  assert (R : r = if Upload.is_pdf_name file
                  then Upload.processFile respond file st0
                  else (Upload.set_error "Only PDF files are supported" st0, [])).
  { subst r handler st0. unfold Upload.handleDrop, Upload.handleFileSelect.
    destruct dropped; destruct (Upload.is_pdf_name file); reflexivity. }
  rewrite R. clear R r handler.
  destruct (Upload.is_pdf_name file) eqn:P.
  - unfold Upload.processFile.
    destruct (respond file) as [fid|detail] eqn:A; simpl.
    + split; [|split; [|split]].
      * split; [intros _; split; [reflexivity | exists fid; reflexivity]
               | reflexivity].
      * intros f _ H. injection H as H. subst f.
        split; [reflexivity|]. split; [reflexivity|].
        split; [right; right; left; reflexivity|].
        intros elapsed later. unfold UploadProgress.settled.
        apply cleared_timer_rests. reflexivity.
      * intros d _ H. discriminate H.
      * intro H. discriminate H.
    + split; [|split; [|split]].
      * split; [intro H; discriminate H | intros [_ [x H]]; discriminate H].
      * intros f _ H. discriminate H.
      * intros d _ _. split; [reflexivity|]. split.
        -- intro elapsed. split; reflexivity.
        -- intros elapsed later. apply rejected_progress.
      * intro H. discriminate H.
  - simpl. split; [|split; [|split]].
    + split; [intro H; discriminate H | intros [H _]; discriminate H].
    + intros f H _. discriminate H.
    + intros d H _. discriminate H.
    + intros _. subst st0. destruct dropped; split; reflexivity.
Qed.

Lemma upload_outcomes_witness :
  let file := {| Upload.name := "march.pdf"; Upload.size := 48213;
                 Upload.type := "application/pdf" |} in
  let st := {| Upload.isDragging := true; Upload.isUploading := false;
               Upload.uploadProgress := 0; Upload.error := Some "Only PDF files are supported" |} in
  Upload.error
    (fst (Upload.handleDrop [file] (fun _ => Upload.Resolved "f-01") st)) = None
  /\ UploadProgress.uploadProgress
       (UploadProgress.settled (Upload.Rejected None) 3 12) = 90%Z
  /\ UploadProgress.uploadProgress
       (UploadProgress.settled (Upload.Rejected None) 10 12) = 0%Z.
Proof.
  intros file st.
  pose proof (upload_outcomes true file [] (fun _ => Upload.Rejected None) st) as F.
  cbv zeta in F. destruct F as [_ [_ [F _]]].
  destruct (F None eq_refl eq_refl) as [_ [_ G]].
  split; [|split; [exact (G 3%nat 12%nat) | exact (G 10%nat 12%nat)]].
  apply (proj1 (upload_outcomes true file [] (fun _ => Upload.Resolved "f-01") st)).
  split; [reflexivity | exists "f-01"; reflexivity].
Defined.
